(** * rank-bert: GLUE data manager and BERT model adapter

    A shallow embedding of [rank_bert/data/load_data.py] and
    [rank_bert/models/base_models.py], with the properties stated for them.

    Python objects that are shared by reference (the dataset dictionary handed
    to [load_datasets]) live in an explicit store; exceptions are values of
    [exn] carried by the [result] monad; the libraries the code calls into
    (tokenizer resolution, dataset download, fastai's DataBlock, the
    transformer itself) are section variables. *)

From Stdlib Require Import ZArith QArith String Ascii List.
From stdpp Require Import base option list gmap strings fin_maps.

Local Open Scope Z_scope.
Local Open Scope string_scope.

Set Default Proof Using "Type".
Local Set Warnings "-register-all".

(** ** Python prelude: exceptions, results, truthiness *)

Module Py.

(** The exceptions the two modules can raise.  The three [ValueError]s of
    [load_data.py] are told apart by their messages, as in the source. *)
Inductive exn : Type :=
| ValueError (msg : string)
| KeyError (key : string)
| IndexError
| TypeError
| AttributeError (attr : string)
| LibraryError (msg : string).

Inductive result (A : Type) : Type :=
| Ok (a : A)
| Raise (e : exn).
Arguments Ok {A} a.
Arguments Raise {A} e.

Definition bind {A B : Type} (r : result A) (k : A -> result B) : result B :=
  match r with
  | Ok a => k a
  | Raise e => Raise e
  end.

Notation "x <- r ;; k" := (bind r (fun x => k))
  (at level 100, r at next level, right associativity).

(** A call into a library either returns or raises something of the
    library's own. *)
Definition lib (A : Type) : Type := (string + A)%type.

Definition call {A : Type} (r : lib A) : result A :=
  match r with
  | inr a => Ok a
  | inl msg => Raise (LibraryError msg)
  end.

(** [d[k]] on a dictionary with string keys. *)
Definition getitem {V : Type} (d : gmap string V) (k : string) : result V :=
  match d !! k with
  | Some v => Ok v
  | None => Raise (KeyError k)
  end.

(** [for x in xs: ys.append(f(x))], stopping at the first exception. *)
Fixpoint for_each {A B : Type} (f : A -> result B) (xs : list A) : result (list B) :=
  match xs with
  | [] => Ok []
  | x :: xs' => y <- f x ;; ys <- for_each f xs' ;; Ok (y :: ys)
  end.

(** [str.lower()].  Strings are byte strings here; only [A]..[Z] change.
    Python also lowers letters outside ASCII, but no such letter lowers to a
    letter of [sst2], [mrpc] or [rte], so membership in the task list is
    decided the same way. *)
Definition lower_ascii (c : ascii) : ascii :=
  let n := nat_of_ascii c in
  if ((65 <=? n) && (n <=? 90))%nat then ascii_of_nat (n + 32) else c.

Fixpoint lower (s : string) : string :=
  match s with
  | EmptyString => EmptyString
  | String c s' => String (lower_ascii c) (lower s')
  end.

(** [x or y] on an optional integer: [None] and [0] are falsy. *)
Definition int_or (x : option Z) (y : Z) : Z :=
  match x with
  | Some n => if (n =? 0)%Z then y else n
  | None => y
  end.

End Py.

Import Py.

(** ** [rank_bert/data/load_data.py] *)

Module Data.

(** A field of a raw example. *)
Inductive value : Type :=
| VStr (s : string)
| VInt (n : Z)
| VNone.

(** One raw example: a record indexed by field name. *)
Abbreviation item := (gmap string value).

(** A split is a sequence of examples; a dataset collection maps split names
    to splits. *)
Abbreviation Dataset := (list (gmap string value)).
Abbreviation DatasetDict := (gmap string (list (gmap string value))).

(** What is appended to [train_texts], [val_texts] and [test_texts]: either
    the bare field or the 2-tuple of both fields. *)
Inductive text : Type :=
| Bare (v : value)
| Tuple2 (v1 v2 : value).

Inductive metric : Type :=
| accuracy
| F1Score (average : string).

(** [pd.DataFrame({'text': ..., 'label': ...})]. *)
Record DataFrame : Type := {
  text_col : list text;
  label_col : list value
}.

(** References to dataset collections, and the store they point into. *)
Abbreviation loc := positive.
Abbreviation store := (gmap positive (gmap string (list (gmap string value)))).

Definition supported_tasks : list string := ["sst2"; "mrpc"; "rte"].

Definition UnsupportedTaskError (task : string) : exn :=
  ValueError ("Task " ++ task ++ " not supported. Use one of: sst2, mrpc, rte").

Definition PrecedenceError : exn :=
  ValueError "You must create training DataLoaders first by calling create_dataloaders()".

Definition NoTestDataError : exn :=
  ValueError "No test data available.".

Definition text_fields_table : gmap string (string * option string) :=
  <["sst2" := ("sentence", None)]>
  (<["mrpc" := ("sentence1", Some "sentence2")]>
  (<["rte" := ("sentence1", Some "sentence2")]> ∅)).

Definition metrics_table : gmap string (list metric) :=
  <["sst2" := [accuracy]]>
  (<["mrpc" := [F1Score "binary"; accuracy]]>
  (<["rte" := [accuracy]]> ∅)).

Definition num_labels_table : gmap string Z :=
  <["sst2" := 2]> (<["mrpc" := 2]> (<["rte" := 2]> ∅)).

Section Manager.

(** The libraries behind the manager. *)
Context {Tokenizer DataLoaders TestDL : Type}.

(** [AutoTokenizer.from_pretrained(model_name)]. *)
Variable AutoTokenizer_from_pretrained : string -> lib Tokenizer.

(** The attributes of a manager.  [datasets] and [dls] are set by later
    calls; [None] stands for an attribute that does not exist yet. *)
Record GLUEDataManager : Type := {
  task_name : string;
  model_name : string;
  max_length : Z;
  bs : Z;
  val_bs : Z;
  cache_dir : option string;
  text_fields : gmap string (string * option string);
  metrics : gmap string (list metric);
  num_labels : gmap string Z;
  tokenizer : Tokenizer;
  datasets : option loc;
  dls : option DataLoaders
}.

Definition __init__ (task_name0 model_name0 : string) (max_length0 bs0 : Z)
    (val_bs0 : option Z) (cache_dir0 : option string) : result GLUEDataManager :=
  let task := lower task_name0 in
  if bool_decide (task ∈ supported_tasks) then
    tok <- call (AutoTokenizer_from_pretrained model_name0) ;;
    Ok {| task_name := task;
          model_name := model_name0;
          max_length := max_length0;
          bs := bs0;
          val_bs := int_or val_bs0 (2 * bs0);
          cache_dir := cache_dir0;
          text_fields := text_fields_table;
          metrics := metrics_table;
          num_labels := num_labels_table;
          tokenizer := tok;
          datasets := None;
          dls := None |}
  else Raise (UnsupportedTaskError task).

(** *** Session state: the store and the manager's attributes *)

Record state : Type := {
  heap : store;
  self : GLUEDataManager
}.

(** Methods run in a state-and-exception monad: an exception keeps the
    assignments made before it was raised. *)
Definition M (A : Type) : Type := state -> state * result A.

Definition ret {A : Type} (a : A) : M A := fun s => (s, Ok a).

Definition raise {A : Type} (e : exn) : M A := fun s => (s, Raise e).

Definition lift {A : Type} (r : result A) : M A := fun s => (s, r).

Definition bindM {A B : Type} (m : M A) (k : A -> M B) : M B :=
  fun s =>
    match m s with
    | (s', Ok a) => k a s'
    | (s', Raise e) => (s', Raise e)
    end.

Notation "x <~ m ;; k" := (bindM m (fun x => k))
  (at level 100, m at next level, right associativity).

Definition get_self : M GLUEDataManager := fun s => (s, Ok (self s)).

(** The object a reference points to.  Every reference a caller can hold is
    allocated; an address outside the store reads as the empty dictionary. *)
Definition deref (r : loc) : M DatasetDict :=
  fun s => (s, Ok (default ∅ (heap s !! r))).

(** A new object, at an address not in use. *)
Definition alloc (ds : DatasetDict) : M loc :=
  fun s =>
    let r := fresh (dom (heap s)) in
    ({| heap := <[r := ds]> (heap s); self := self s |}, Ok r).

(** [datasets[split]] through the reference. *)
Definition dict_get (r : loc) (split : string) : M Dataset :=
  ds <~ deref r ;; lift (getitem ds split).

(** [datasets[split] = d] through the reference: the object is updated in
    place, so every holder of [r] sees the new entry. *)
Definition dict_set (r : loc) (split : string) (d : Dataset) : M unit :=
  fun s =>
    ({| heap := <[r := <[split := d]> (default ∅ (heap s !! r))]> (heap s);
        self := self s |}, Ok tt).

(** [datasets.keys()]. *)
Definition dict_keys (r : loc) : M (list string) :=
  ds <~ deref r ;; ret (elements (dom ds)).

Definition with_datasets (r : loc) (m : GLUEDataManager) : GLUEDataManager :=
  {| task_name := task_name m; model_name := model_name m;
     max_length := max_length m; bs := bs m; val_bs := val_bs m;
     cache_dir := cache_dir m; text_fields := text_fields m;
     metrics := metrics m; num_labels := num_labels m;
     tokenizer := tokenizer m; datasets := Some r; dls := dls m |}.

Definition with_dls (d : DataLoaders) (m : GLUEDataManager) : GLUEDataManager :=
  {| task_name := task_name m; model_name := model_name m;
     max_length := max_length m; bs := bs m; val_bs := val_bs m;
     cache_dir := cache_dir m; text_fields := text_fields m;
     metrics := metrics m; num_labels := num_labels m;
     tokenizer := tokenizer m; datasets := datasets m; dls := Some d |}.

(** [self.datasets = r] *)
Definition set_self_datasets (r : loc) : M unit :=
  fun s => ({| heap := heap s; self := with_datasets r (self s) |}, Ok tt).

(** [self.dls = d] *)
Definition set_self_dls (d : DataLoaders) : M unit :=
  fun s => ({| heap := heap s; self := with_dls d (self s) |}, Ok tt).

(** [self.datasets], an [AttributeError] before the first load. *)
Definition self_datasets : M loc :=
  m <~ get_self ;;
  match datasets m with
  | Some r => ret r
  | None => raise (AttributeError "datasets")
  end.

(** [for x in xs: body(x)] *)
Fixpoint for_ {A : Type} (xs : list A) (body : A -> M unit) : M unit :=
  match xs with
  | [] => ret tt
  | x :: xs' => _ <~ body x ;; for_ xs' body
  end.

(** *** [load_datasets] *)

(** [load_dataset('glue', task_name, cache_dir=cache_dir)] *)
Variable load_dataset : string -> string -> option string -> lib DatasetDict.

(** [len(d)] *)
Definition len {A : Type} (l : list A) : Z := Z.of_nat (length l).

(** [d.select(range(n))]: the rows at indices [0 .. n-1]; [range(n)] is
    empty when [n <= 0]. *)
Definition select_range (n : Z) (d : Dataset) : Dataset := take (Z.to_nat n) d.

(** What the loop body leaves at key [split], given the split [d] found
    there. *)
Definition truncate_entry (n : Z) (split : string) (d : Dataset) : Dataset :=
  if bool_decide (split ≠ "test") then select_range (Z.min n (len d)) d else d.

(** The [print] calls write to standard output only and are left out. *)
Definition load_datasets (custom_datasets : option loc) (max_samples : option Z)
    : M loc :=
  datasets0 <~ match custom_datasets with
               | Some r => ret r
               | None =>
                   m <~ get_self ;;
                   ds <~ lift (call (load_dataset "glue" (task_name m) (cache_dir m))) ;;
                   alloc ds
               end ;;
  _ <~ match max_samples with
       | Some n =>
           keys <~ dict_keys datasets0 ;;
           for_ keys (fun split =>
             if bool_decide (split ≠ "test") then
               (d <~ dict_get datasets0 split ;;
                dict_set datasets0 split (select_range (Z.min n (len d)) d))
             else ret tt)
       | None => ret tt
       end ;;
  _ <~ set_self_datasets datasets0 ;;
  ret datasets0.

(** Where the collection [load_datasets] works on comes from: the caller's
    object at [r], or the hub's answer, put at the new address [r]. *)
Definition collection_at (s : state) (custom : option loc) (r : loc)
    (ds : DatasetDict) : Prop :=
  (custom = Some r /\ heap s !! r = Some ds)
  \/ (custom = None
      /\ load_dataset "glue" (task_name (self s)) (cache_dir (self s)) = inr ds
      /\ r = fresh (dom (heap s))).

(** *** [_prepare_fastai_data] *)

(** The four lists it returns. *)
Record prepared : Type := {
  train_texts : list text;
  train_labels : list value;
  val_texts : list text;
  val_labels : list value
}.

Definition _prepare_fastai_data (m : GLUEDataManager) (ds : DatasetDict)
    : result prepared :=
  fields <- getitem (text_fields m) (task_name m) ;;
  let text_field1 := fields.1 in
  let text_field2 := fields.2 in
  train <- getitem ds "train" ;;
  train_rows <- for_each (fun it : item =>
      t <- match text_field2 with
           | Some f2 =>
               v1 <- getitem it text_field1 ;;
               v2 <- getitem it f2 ;;
               Ok (Tuple2 v1 v2)
           | None => v <- getitem it text_field1 ;; Ok (Bare v)
           end ;;
      l <- getitem it "label" ;;
      Ok (t, l)) train ;;
  validation <- getitem ds "validation" ;;
  val_rows <- for_each (fun it : item =>
      t <- match text_field2 with
           | Some f2 =>
               v1 <- getitem it text_field1 ;;
               v2 <- getitem it f2 ;;
               Ok (Tuple2 v1 v2)
           | None => v <- getitem it text_field1 ;; Ok (Bare v)
           end ;;
      l <- getitem it "label" ;;
      Ok (t, l)) validation ;;
  Ok {| train_texts := train_rows.*1; train_labels := train_rows.*2;
        val_texts := val_rows.*1; val_labels := val_rows.*2 |}.

(** *** [create_dataloaders] *)

(** What is handed to fastai: the frame, the index range of the validation
    rows, the tokenizing batch transform's settings, the batch sizes and
    the lengths used for sorting. *)
Record DataBlockCall : Type := {
  df : DataFrame;
  splitter : Z * Z;
  pretrained_model_name : string;
  tok_max_length : Z;
  dl_bs : Z;
  dl_val_bs : Z;
  res : list Z;
  val_res : list Z
}.

(** [len(str(t))] *)
Variable str_len : text -> Z.

(** [glue_block.dataloaders(df, bs=..., val_bs=..., dl_kwargs=...)] *)
Variable dataloaders : DataBlockCall -> lib DataLoaders.

Definition create_dataloaders (custom_datasets : option loc)
    (max_samples : option Z) : M DataLoaders :=
  m0 <~ get_self ;;
  _ <~ (if bool_decide (datasets m0 = None) || bool_decide (custom_datasets ≠ None)
        then _ <~ load_datasets custom_datasets max_samples ;; ret tt
        else ret tt) ;;
  m <~ get_self ;;
  r <~ self_datasets ;;
  ds <~ deref r ;;
  p <~ lift (_prepare_fastai_data m ds) ;;
  let all_texts := (train_texts p ++ val_texts p)%list in
  let all_labels := (train_labels p ++ val_labels p)%list in
  let df0 := {| text_col := all_texts; label_col := all_labels |} in
  let train_lens := str_len <$> train_texts p in
  let val_lens := str_len <$> val_texts p in
  d <~ lift (call (dataloaders
         {| df := df0;
            splitter := (len (train_texts p), len (train_texts p) + len (val_labels p));
            pretrained_model_name := model_name m;
            tok_max_length := max_length m;
            dl_bs := bs m;
            dl_val_bs := val_bs m;
            res := train_lens;
            val_res := val_lens |})) ;;
  _ <~ set_self_dls d ;;
  ret d.

(** *** [create_test_dataloader] *)

(** [self.dls.test_dl(test_df)] *)
Variable test_dl : DataLoaders -> DataFrame -> lib TestDL.

(** Lines 176-184: the test frame built from the chosen test data. *)
Definition test_frame (m : GLUEDataManager) (test_data : Dataset)
    : result DataFrame :=
  fields <- getitem (text_fields m) (task_name m) ;;
  let text_field1 := fields.1 in
  let text_field2 := fields.2 in
  test_texts <- for_each (fun it : item =>
      match text_field2 with
      | Some f2 =>
          v1 <- getitem it text_field1 ;;
          v2 <- getitem it f2 ;;
          Ok (Tuple2 v1 v2)
      | None => v <- getitem it text_field1 ;; Ok (Bare v)
      end) test_data ;;
  Ok {| text_col := test_texts;
        label_col := replicate (length test_texts) (VInt 0) |}.

(** [test_data or self.datasets.get('test')]: the right operand is only
    evaluated, and is the value of the expression whatever it is, when
    [test_data] is [None] or empty. *)
Definition test_data_or_loaded (test_data : option Dataset) : M (option Dataset) :=
  match test_data with
  | Some (_ :: _) => ret test_data
  | _ => r <~ self_datasets ;; ds <~ deref r ;; ret (ds !! "test")
  end.

Definition create_test_dataloader (test_data : option Dataset) : M TestDL :=
  m <~ get_self ;;
  match dls m with
  | None => raise PrecedenceError
  | Some dls0 =>
      test_data' <~ test_data_or_loaded test_data ;;
      match test_data' with
      | None => raise NoTestDataError
      | Some td =>
          test_df <~ lift (test_frame m td) ;;
          lift (call (test_dl dls0 test_df))
      end
  end.

(** *** Frame conditions on computations *)

(** A computation that leaves the [dls] attribute alone, however it ends. *)
Definition keeps_dls {A : Type} (m : M A) : Prop :=
  forall s : state, dls (self (m s).1) = dls (self s).

(** A computation that changes nothing. *)
Definition reads_only {A : Type} (m : M A) : Prop :=
  forall s : state, (m s).1 = s.

(** [create_dataloaders] sets [dls] to what it returns, and only when it
    returns. *)
Definition sets_dls_on_return (m : M DataLoaders) : Prop :=
  forall s : state,
    match (m s).2 with
    | Ok d => dls (self (m s).1) = Some d
    | Raise _ => dls (self (m s).1) = dls (self s)
    end.

(** What a method may do to the manager: the settings stay, and an
    attribute that is set stays set. *)
Definition grows (m m' : GLUEDataManager) : Prop :=
  task_name m' = task_name m /\ model_name m' = model_name m
  /\ max_length m' = max_length m /\ bs m' = bs m /\ val_bs m' = val_bs m
  /\ cache_dir m' = cache_dir m /\ text_fields m' = text_fields m
  /\ metrics m' = metrics m /\ num_labels m' = num_labels m
  /\ tokenizer m' = tokenizer m
  /\ (is_Some (datasets m) -> is_Some (datasets m'))
  /\ (is_Some (dls m) -> is_Some (dls m')).

(** Training batches are only ever there together with loaded datasets. *)
Definition consistent (m : GLUEDataManager) : Prop :=
  is_Some (dls m) -> is_Some (datasets m).

(** The call [create_dataloaders] makes into fastai, from the four lists. *)
Definition block_call (m : GLUEDataManager) (p : prepared) : DataBlockCall :=
  {| df := {| text_col := (train_texts p ++ val_texts p)%list;
              label_col := (train_labels p ++ val_labels p)%list |};
     splitter := (len (train_texts p), len (train_texts p) + len (val_labels p));
     pretrained_model_name := model_name m;
     tok_max_length := max_length m;
     dl_bs := bs m;
     dl_val_bs := val_bs m;
     res := str_len <$> train_texts p;
     val_res := str_len <$> val_texts p |}.

(** *** Sessions: calls made one after another on one manager *)

Inductive method : Type :=
| LoadDatasets (custom_datasets : option loc) (max_samples : option Z)
| BuildTrainingBatches (custom_datasets : option loc) (max_samples : option Z)
| BuildTestBatches (test_data : option Dataset).

(** How a call ended: [None] when it returned, the exception otherwise. *)
Definition raised {A : Type} (r : result A) : option exn :=
  match r with
  | Ok _ => None
  | Raise e => Some e
  end.

Definition perform (c : method) (s : state) : state * option exn :=
  match c with
  | LoadDatasets custom n =>
      let out := load_datasets custom n s in (out.1, raised out.2)
  | BuildTrainingBatches custom n =>
      let out := create_dataloaders custom n s in (out.1, raised out.2)
  | BuildTestBatches td =>
      let out := create_test_dataloader td s in (out.1, raised out.2)
  end.

(** The caller goes on after an exception, on the state it left. *)
Fixpoint run (cs : list method) (s : state) : state * list (option exn) :=
  match cs with
  | [] => (s, [])
  | c :: cs' =>
      let out := perform c s in
      let rest := run cs' out.1 in
      (rest.1, out.2 :: rest.2)
  end.

End Manager.

Notation "x <~ m ;; k" := (bindM m (fun x => k))
  (at level 100, m at next level, right associativity).

(** The entry the task's text fields prescribe for an example: the bare
    value of the single field, or the pair of both values in field order. *)
Inductive prescribed : string * option string -> item -> text -> Prop :=
| prescribed_one (f1 : string) (it : item) (v : value) :
    it !! f1 = Some v -> prescribed (f1, None) it (Bare v)
| prescribed_two (f1 f2 : string) (it : item) (v1 v2 : value) :
    it !! f1 = Some v1 -> it !! f2 = Some v2 ->
    prescribed (f1, Some f2) it (Tuple2 v1 v2).

(** *** [TextGetter] *)

Record TextGetter : Type := {
  s1 : string;
  s2 : option string
}.

(** [TextGetter()] with both arguments left out. *)
Definition TextGetter_default : TextGetter := {| s1 := "text"; s2 := None |}.

Definition encodes (g : TextGetter) (sample : item) : result text :=
  match s2 g with
  | None => v <- getitem sample (s1 g) ;; Ok (Bare v)
  | Some f2 =>
      v1 <- getitem sample (s1 g) ;;
      v2 <- getitem sample f2 ;;
      Ok (Tuple2 v1 v2)
  end.

End Data.

(** ** [rank_bert/models/base_models.py] *)

Module Models.

Definition GLUE_NUM_LABELS : gmap string Z :=
  <["sst2" := 2]> (<["mrpc" := 2]> (<["rte" := 2]> ∅)).

(** One entry of [BERT_CONFIGS]: the keyword arguments it holds. *)
Record arch : Type := {
  hidden_size : Z;
  num_hidden_layers : Z;
  num_attention_heads : Z;
  intermediate_size : Z
}.

Definition BERT_CONFIGS : gmap string arch :=
  <["prajjwal1/bert-tiny" :=
      {| hidden_size := 128; num_hidden_layers := 2;
         num_attention_heads := 2; intermediate_size := 512 |}]>
  (<["prajjwal1/bert-mini" :=
      {| hidden_size := 256; num_hidden_layers := 4;
         num_attention_heads := 4; intermediate_size := 1024 |}]>
  (<["prajjwal1/bert-small" :=
      {| hidden_size := 512; num_hidden_layers := 4;
         num_attention_heads := 8; intermediate_size := 2048 |}]> ∅)).

(** The [BertConfig] built from an entry unpacked as keyword arguments and
    the three keyword arguments given beside it.  The two probabilities are the decimal
    literal [0.1]. *)
Record BertConfig : Type := {
  shape_kwargs : arch;
  num_labels : Z;
  hidden_dropout_prob : Q;
  attention_probs_dropout_prob : Q
}.

Section Resolve.

Context {Model : Type}.

(** [BertForSequenceClassification(config)]: a new model with random
    weights. *)
Variable BertForSequenceClassification : BertConfig -> lib Model.

(** [AutoModelForSequenceClassification.from_pretrained(name, num_labels=n)]:
    the fetch from the model repository. *)
Variable from_pretrained : string -> Z -> lib Model.

(** [num_labels or GLUE_NUM_LABELS.get(task_name, 2)] *)
Definition resolve_num_labels (task_name : string) (num_labels0 : option Z) : Z :=
  int_or num_labels0 (default 2 (GLUE_NUM_LABELS !! task_name)).

Definition get_pretrained_model (model_name task_name : string)
    (num_labels0 : option Z) : result Model :=
  let n := resolve_num_labels task_name num_labels0 in
  if bool_decide (model_name ∈ dom BERT_CONFIGS) then
    entry <- getitem BERT_CONFIGS model_name ;;
    let config := {| shape_kwargs := entry;
                     num_labels := n;
                     hidden_dropout_prob := 1 # 10;
                     attention_probs_dropout_prob := 1 # 10 |} in
    call (BertForSequenceClassification config)
  else
    call (from_pretrained model_name n).

End Resolve.

(** *** [BertWrapper] *)

Section Wrapper.

Context {Model scalar : Type}.

Record Tensor : Type := {
  shape : list Z;
  entries : list scalar
}.

(** What the transformer returns: the scores and the fields the wrapper
    drops. *)
Record SequenceClassifierOutput : Type := {
  logits : Tensor;
  loss : option Tensor;
  hidden_states : option (list Tensor);
  attentions : option (list Tensor)
}.

(** The batch handed to [forward]: a dictionary from names to tensors (or
    [None]), or a tuple. *)
Inductive batch : Type :=
| Dict (d : gmap string (option Tensor))
| Tuple (xs : list batch).

(** [self.model(...)]: the call with exactly these keyword arguments. *)
Variable call_model : Model -> gmap string (option Tensor) -> lib SequenceClassifierOutput.

Record BertWrapper : Type := { model : Model }.

Definition forward (w : BertWrapper) (x : batch) : result Tensor :=
  x <- match x with
       | Tuple [] => Raise IndexError
       | Tuple (x0 :: _) => Ok x0
       | Dict _ => Ok x
       end ;;
  match x with
  | Tuple _ => Raise TypeError
  | Dict d =>
      input_ids <- getitem d "input_ids" ;;
      attention_mask <- getitem d "attention_mask" ;;
      let token_type_ids := default None (d !! "token_type_ids") in
      outputs <- match token_type_ids with
                 | Some _ =>
                     call (call_model (model w)
                       (<["input_ids" := input_ids]>
                       (<["attention_mask" := attention_mask]>
                       (<["token_type_ids" := token_type_ids]> ∅))))
                 | None =>
                     call (call_model (model w)
                       (<["input_ids" := input_ids]>
                       (<["attention_mask" := attention_mask]> ∅)))
                 end ;;
      Ok (logits outputs)
  end.

End Wrapper.

(** *** [count_parameters] *)

(** A parameter tensor, as far as counting goes: what [p.numel()] returns
    and the [requires_grad] flag. *)
Record ParameterTensor : Type := {
  numel : Z;
  requires_grad : bool
}.

(** [sum(p.numel() for p in model.parameters() if p.requires_grad)] on the
    parameters in the order [model.parameters()] yields them. *)
Fixpoint count_parameters (parameters : list ParameterTensor) : Z :=
  match parameters with
  | [] => 0
  | p :: rest =>
      if requires_grad p then numel p + count_parameters rest
      else count_parameters rest
  end.

Section Wrapped.

Context {Model scalar : Type}.
Variable BertForSequenceClassification : BertConfig -> lib Model.
Variable from_pretrained : string -> Z -> lib Model.

Definition get_wrapped_model (model_name task_name : string)
    (num_labels0 : option Z) : result (@BertWrapper Model) :=
  m <- get_pretrained_model BertForSequenceClassification from_pretrained
         model_name task_name num_labels0 ;;
  Ok {| model := m |}.

End Wrapped.

End Models.

(** ** Sample objects

    Stand-ins for the libraries and a few inputs, used to run the
    definitions above. *)

Module Sample.

Import Data.

(** A tokenizer is resolved for every model name but the empty one. *)
Definition tokenizer_for (name : string) : lib string :=
  if bool_decide (name = "") then inl "OSError: not a model identifier" else inr name.

(** The batch streams are stood for by what they were built from. *)
Definition dataloaders_of (c : DataBlockCall) : lib DataBlockCall := inr c.

(** [test_dl] reads the first row of the frame it is given, so a frame
    without rows makes it raise. *)
Definition test_dl_of (d : DataBlockCall) (f : DataFrame) : lib DataFrame :=
  match text_col f with
  | [] => inl "IndexError: single positional indexer is out-of-bounds"
  | _ :: _ => inr f
  end.

Definition str_len_of (t : text) : Z :=
  match t with
  | Bare (VStr s) => Z.of_nat (String.length s)
  | Tuple2 (VStr a) (VStr b) => Z.of_nat (String.length a + String.length b + 8)
  | _ => 4
  end.

Definition pair_example (a b : string) (label : Z) : item :=
  <["sentence1" := VStr a]> (<["sentence2" := VStr b]> (<["label" := VInt label]> ∅)).

Definition single_example (a : string) (label : Z) : item :=
  <["sentence" := VStr a]> (<["label" := VInt label]> ∅).

Definition guitar : item :=
  pair_example "A man is playing guitar." "A person plays a guitar." 1.

Definition mrpc_splits : DatasetDict :=
  <["train" := [guitar; pair_example "a" "b" 0; pair_example "c" "d" 1]]>
  (<["validation" := [pair_example "e" "f" 0]]>
  (<["test" := [pair_example "g" "h" (-1); pair_example "i" "j" (-1)]]> ∅)).

Definition sst2_splits : DatasetDict :=
  <["train" := [single_example "good" 1; single_example "bad" 0]]>
  (<["validation" := [single_example "fine" 1]]>
  (<["test" := [single_example "meh" (-1)]]> ∅)).

(** A collection whose test split is there but has no rows. *)
Definition empty_test_splits : DatasetDict :=
  <["train" := [guitar]]> (<["validation" := [guitar]]> (<["test" := []]> ∅)).

Definition glue_hub (path task : string) (cache : option string) : lib DatasetDict :=
  if bool_decide (task = "mrpc") then inr mrpc_splits
  else if bool_decide (task = "sst2") then inr sst2_splits
  else inl "ConnectionError".

Definition new_manager (task : string) : result (@GLUEDataManager string DataBlockCall) :=
  __init__ tokenizer_for task "prajjwal1/bert-tiny" 64 4 None None.

Definition manager_or (task : string) (d : @GLUEDataManager string DataBlockCall)
    : @GLUEDataManager string DataBlockCall :=
  match new_manager task with
  | Ok m => m
  | Raise _ => d
  end.

Definition mrpc_manager : @GLUEDataManager string DataBlockCall :=
  Eval vm_compute in
    manager_or "MRPC"
      {| task_name := ""; model_name := ""; max_length := 0; bs := 0; val_bs := 0;
         cache_dir := None; text_fields := ∅; metrics := ∅; num_labels := ∅;
         tokenizer := ""; datasets := None; dls := None |}.

(** A fresh [mrpc] manager, with the caller holding [mrpc_splits] at
    address 1 and [empty_test_splits] at address 2. *)
Definition fresh_session : @state string DataBlockCall :=
  {| heap := <[1%positive := mrpc_splits]> (<[2%positive := empty_test_splits]> ∅);
     self := mrpc_manager |}.

(** The session after [create_dataloaders(custom_datasets=...)] on the
    collection at address [r]. *)
Definition trained_on (r : loc) : @state string DataBlockCall :=
  (create_dataloaders glue_hub str_len_of dataloaders_of (Some r) None
     fresh_session).1.

(** A transformer returning fixed scores of shape [batch x 2]. *)
Definition two_class_model (m : unit) (kwargs : gmap string (option (@Models.Tensor Z)))
    : lib (@Models.SequenceClassifierOutput Z) :=
  inr {| Models.logits := {| Models.shape := [1; 2]; Models.entries := [3; -3] |};
         Models.loss := None;
         Models.hidden_states := Some [];
         Models.attentions := None |}.

Definition ids_tensor : @Models.Tensor Z :=
  {| Models.shape := [1; 4]; Models.entries := [101; 7592; 102; 0] |}.

Definition mask_tensor : @Models.Tensor Z :=
  {| Models.shape := [1; 4]; Models.entries := [1; 1; 1; 0] |}.

Definition plain_batch : gmap string (option (@Models.Tensor Z)) :=
  <["input_ids" := Some ids_tensor]> (<["attention_mask" := Some mask_tensor]> ∅).

(** Building a compact model always works; the model repository is out of
    reach. *)
Definition build_model (c : Models.BertConfig) : lib Models.BertConfig := inr c.

Definition fetch_model (name : string) (n : Z) : lib Models.BertConfig :=
  inl "OSError: cannot reach the model repository".

(** A script that asks for test batches too early and then again after
    the training batches. *)
Definition early_then_late : list method :=
  [BuildTestBatches None; BuildTrainingBatches (Some 1%positive) None;
   BuildTestBatches None].

(** An [rte] manager: the sample hub has no [rte] data. *)
Definition rte_manager : @GLUEDataManager string DataBlockCall :=
  Eval vm_compute in manager_or "rte" mrpc_manager.

Definition rte_session : @state string DataBlockCall :=
  {| heap := <[1%positive := mrpc_splits]> ∅; self := rte_manager |}.

(** A collection without a [train] split. *)
Definition no_train_splits : DatasetDict :=
  <["validation" := [guitar]]> (<["test" := [guitar]]> ∅).

Definition no_train_session : @state string DataBlockCall :=
  {| heap := <[1%positive := no_train_splits]> ∅; self := mrpc_manager |}.

(** A layer with a trainable weight matrix and a frozen bias. *)
Definition layer_parameters : list Models.ParameterTensor :=
  [{| Models.numel := 128 * 2; Models.requires_grad := true |};
   {| Models.numel := 2; Models.requires_grad := false |}].

(** A model whose call fails. *)
Definition failing_model (m : unit) (kwargs : gmap string (option (@Models.Tensor Z)))
    : lib (@Models.SequenceClassifierOutput Z) :=
  inl "RuntimeError: CUDA out of memory".

End Sample.

(** * Facts about the prelude *)

Module PyFacts.

Lemma call_raises_library {A : Type} (r : lib A) (e : exn) :
  call r = Raise e -> exists msg, e = LibraryError msg.
Proof. destruct r as [msg | a]; simpl; intros H; inversion H; eauto. Qed.

End PyFacts.

Import PyFacts.

(** * Properties of the model adapter *)

Module ModelFacts.

Import Models.

Section Resolve.

Context {Model : Type}.
Variable BertForSequenceClassification : BertConfig -> lib Model.
Variable from_pretrained : string -> Z -> lib Model.

Local Abbreviation resolve := (get_pretrained_model BertForSequenceClassification from_pretrained).

Lemma glue_num_labels_lookup (task : string) (n : Z) :
  GLUE_NUM_LABELS !! task = Some n ->
  (task = "sst2" \/ task = "mrpc" \/ task = "rte") /\ n = 2.
Proof.
  unfold GLUE_NUM_LABELS. intros H.
  repeat (apply lookup_insert_Some in H as [[<- <-] | [_ H]]; [tauto |]).
  by rewrite lookup_empty in H.
Qed.

Lemma default_num_labels_is_two (task : string) :
  default 2 (GLUE_NUM_LABELS !! task) = 2.
Proof.
  destruct (GLUE_NUM_LABELS !! task) as [n |] eqn:E; [| done].
  by apply glue_num_labels_lookup in E as [_ ->].
Qed.

Lemma configs_lookup_dom (name : string) :
  bool_decide (name ∈ dom BERT_CONFIGS) = true <-> is_Some (BERT_CONFIGS !! name).
Proof. rewrite bool_decide_eq_true. apply elem_of_dom. Qed.

Lemma resolve_known (name task : string) (nl : option Z) (entry : arch) :
  BERT_CONFIGS !! name = Some entry ->
  resolve name task nl =
    call (BertForSequenceClassification
            {| shape_kwargs := entry;
               num_labels := resolve_num_labels task nl;
               hidden_dropout_prob := 1 # 10;
               attention_probs_dropout_prob := 1 # 10 |}).
Proof.
  intros E. unfold get_pretrained_model.
  rewrite (proj2 (configs_lookup_dom name)) by eauto.
  unfold getitem. by rewrite E.
Qed.

Lemma resolve_unknown (name task : string) (nl : option Z) :
  BERT_CONFIGS !! name = None ->
  resolve name task nl = call (from_pretrained name (resolve_num_labels task nl)).
Proof.
  intros E. unfold get_pretrained_model.
  destruct (bool_decide (name ∈ dom BERT_CONFIGS)) eqn:D; [| done].
  apply configs_lookup_dom in D as [entry D]. congruence.
Qed.

(** C6.  With [num_labels] left out, the label count is the task's entry of
    [GLUE_NUM_LABELS] for the three tasks and 2 for every other task name;
    the task name then has no further influence: the call is the one made
    with that count given explicitly, so a failure is always the library's
    and never due to the task name. *)
Theorem num_labels_default_permissive (model_name task_name : string) :
  resolve_num_labels task_name None = default 2 (GLUE_NUM_LABELS !! task_name)
  /\ (forall n, GLUE_NUM_LABELS !! task_name = Some n ->
        resolve_num_labels task_name None = n)
  /\ (GLUE_NUM_LABELS !! task_name = None ->
        resolve_num_labels task_name None = 2
        /\ resolve model_name task_name None = resolve model_name task_name (Some 2))
  /\ (forall other_task,
        resolve model_name task_name None = resolve model_name other_task None)
  /\ (forall e, resolve model_name task_name None = Raise e ->
        exists msg, e = LibraryError msg).
Proof.
  assert (Hsame : forall t, resolve model_name t None = resolve model_name t (Some 2)).
  { intros t. unfold get_pretrained_model, resolve_num_labels. simpl.
    by rewrite default_num_labels_is_two. }
  split; [done |]. split.
  { intros n E. unfold resolve_num_labels. simpl. by rewrite E. }
  split.
  { intros E. split; [| apply Hsame].
    unfold resolve_num_labels. simpl. by rewrite E. }
  split.
  { intros t. by rewrite !Hsame. }
  intros e. destruct (BERT_CONFIGS !! model_name) as [entry |] eqn:E.
  - rewrite (resolve_known _ _ _ entry E). apply call_raises_library.
  - rewrite (resolve_unknown _ _ _ E). apply call_raises_library.
Qed.

(** C7.  A model name that is a key of [BERT_CONFIGS] builds a new model
    from the configuration holding exactly that entry's four sizes, both
    dropout probabilities 0.1 and [num_labels] output labels; any other
    model name goes to the pretrained fetch with the same [num_labels].  The
    table has the three entries listed. *)
Theorem compact_or_pretrained (model_name task_name : string) (nl : option Z) :
  (forall entry, BERT_CONFIGS !! model_name = Some entry ->
     exists config,
       resolve model_name task_name nl = call (BertForSequenceClassification config)
       /\ hidden_size (shape_kwargs config) = hidden_size entry
       /\ num_hidden_layers (shape_kwargs config) = num_hidden_layers entry
       /\ num_attention_heads (shape_kwargs config) = num_attention_heads entry
       /\ intermediate_size (shape_kwargs config) = intermediate_size entry
       /\ hidden_dropout_prob config = 1 # 10
       /\ attention_probs_dropout_prob config = 1 # 10
       /\ num_labels config = resolve_num_labels task_name nl)
  /\ (BERT_CONFIGS !! model_name = None ->
       resolve model_name task_name nl =
         call (from_pretrained model_name (resolve_num_labels task_name nl)))
  /\ BERT_CONFIGS !! "prajjwal1/bert-tiny" = Some (Build_arch 128 2 2 512)
  /\ BERT_CONFIGS !! "prajjwal1/bert-mini" = Some (Build_arch 256 4 4 1024)
  /\ BERT_CONFIGS !! "prajjwal1/bert-small" = Some (Build_arch 512 4 8 2048)
  /\ (is_Some (BERT_CONFIGS !! model_name) ->
        model_name = "prajjwal1/bert-tiny" \/ model_name = "prajjwal1/bert-mini"
        \/ model_name = "prajjwal1/bert-small").
Proof.
  split.
  { intros entry E. eexists. split; [apply (resolve_known _ _ _ entry E) |].
    simpl. tauto. }
  split; [apply resolve_unknown |].
  do 3 (split; [reflexivity |]).
  intros [entry H]. unfold BERT_CONFIGS in H.
  repeat (apply lookup_insert_Some in H as [[<- _] | [_ H]]; [tauto |]).
  by rewrite lookup_empty in H.
Qed.

End Resolve.

Section Wrapper.

Context {Model scalar : Type}.
Variable call_model :
  Model -> gmap string (option (@Tensor scalar)) -> lib (@SequenceClassifierOutput scalar).

Local Abbreviation fwd := (forward call_model).

(** The keyword arguments [forward] passes for a dictionary batch. *)
Lemma forward_dict (w : BertWrapper) (d : gmap string (option Tensor))
    (ids mask : option Tensor) :
  d !! "input_ids" = Some ids ->
  d !! "attention_mask" = Some mask ->
  fwd w (Dict d) =
    (out <- call (call_model (model w)
              (match d !! "token_type_ids" with
               | Some (Some t) =>
                   <["input_ids" := ids]> (<["attention_mask" := mask]>
                     (<["token_type_ids" := Some t]> ∅))
               | _ => <["input_ids" := ids]> (<["attention_mask" := mask]> ∅)
               end)) ;;
     Ok (logits out)).
Proof.
  intros Hi Hm. unfold forward, getitem. simpl. rewrite Hi, Hm. simpl.
  by destruct (d !! "token_type_ids") as [[t |] |].
Qed.

Lemma forward_tuple (w : BertWrapper) (d : gmap string (option Tensor))
    (rest : list batch) :
  fwd w (Tuple (Dict d :: rest)) = fwd w (Dict d).
Proof. reflexivity. Qed.

(** C4.  For a dictionary batch holding [input_ids] and [attention_mask],
    alone or as the first element of a tuple, [forward] calls the model with
    those two tensors, adds [token_type_ids] only when the batch has that
    key (with a tensor), and returns exactly the [logits] field of what the
    model returns.  When the model's scores have last dimension [n], so has
    the result, with or without [token_type_ids] and for both batch
    shapes. *)
Theorem forward_returns_logits (w : BertWrapper)
    (d : gmap string (option Tensor)) (ids mask : option Tensor) (n : Z) :
  d !! "input_ids" = Some ids ->
  d !! "attention_mask" = Some mask ->
  (forall kwargs out, call_model (model w) kwargs = inr out ->
     last (shape (logits out)) = Some n) ->
  fwd w (Tuple [Dict d]) = fwd w (Dict d)
  /\ (forall t, d !! "token_type_ids" = Some (Some t) ->
        fwd w (Dict d) =
          (out <- call (call_model (model w)
                    (<["input_ids" := ids]> (<["attention_mask" := mask]>
                      (<["token_type_ids" := Some t]> ∅)))) ;;
           Ok (logits out)))
  /\ (d !! "token_type_ids" = None \/ d !! "token_type_ids" = Some None ->
        fwd w (Dict d) =
          (out <- call (call_model (model w)
                    (<["input_ids" := ids]> (<["attention_mask" := mask]> ∅))) ;;
           Ok (logits out)))
  /\ (forall x t, x = Dict d \/ x = Tuple [Dict d] ->
        fwd w x = Ok t ->
        last (shape t) = Some n
        /\ exists kwargs out,
             call_model (model w) kwargs = inr out /\ t = logits out
             /\ kwargs !! "input_ids" = Some ids
             /\ kwargs !! "attention_mask" = Some mask
             /\ (is_Some (kwargs !! "token_type_ids") ->
                   is_Some (d !! "token_type_ids"))
             /\ (forall t', d !! "token_type_ids" = Some (Some t') ->
                   kwargs !! "token_type_ids" = Some (Some t'))).
Proof.
  intros Hi Hm Hshape. split; [reflexivity |]. split.
  { intros t Ht. rewrite (forward_dict w d ids mask Hi Hm). by rewrite Ht. }
  split.
  { intros Ht. rewrite (forward_dict w d ids mask Hi Hm). by destruct Ht as [-> | ->]. }
  intros x t Hx Hrun.
  assert (Hd : fwd w (Dict d) = Ok t) by (by destruct Hx as [-> | ->]).
  clear Hx Hrun. rewrite (forward_dict w d ids mask Hi Hm) in Hd.
  match type of Hd with context [call_model _ ?kw] => set (kwargs := kw) in * end.
  destruct (call_model (model w) kwargs) as [msg | out] eqn:Hcall; simpl in Hd;
    [discriminate |].
  injection Hd as <-. split; [by eapply Hshape |].
  exists kwargs, out. split; [done |]. split; [done |].
  subst kwargs. destruct (d !! "token_type_ids") as [[t' |] |] eqn:Ht;
    (split; [done |]); (split; [done |]); split; eauto;
    try (intros [? H]; by vm_compute in H); by intros ? [=].
Qed.

End Wrapper.

End ModelFacts.

(** * Properties of the dataset manager *)

Module DataFacts.

Import Data.

(** *** The task tables *)

Lemma supported_tasks_spec (task : string) :
  task ∈ supported_tasks <-> task = "sst2" \/ task = "mrpc" \/ task = "rte".
Proof.
  unfold supported_tasks. rewrite !elem_of_cons, elem_of_nil. tauto.
Qed.

Lemma text_fields_supported (task : string) :
  task ∈ supported_tasks ->
  exists fields,
    text_fields_table !! task = Some fields
    /\ (task = "sst2" -> fields = ("sentence", None))
    /\ (task = "mrpc" \/ task = "rte" -> fields = ("sentence1", Some "sentence2")).
Proof.
  intros [-> | [-> | ->]]%supported_tasks_spec; eexists;
    (split; [reflexivity |]); split; try done; intros [[=] | [=]].
Qed.

Lemma num_labels_supported (task : string) :
  task ∈ supported_tasks -> num_labels_table !! task = Some 2.
Proof. by intros [-> | [-> | ->]]%supported_tasks_spec. Qed.

Section Manager.

Context {Tokenizer DataLoaders TestDL : Type}.
Variable AutoTokenizer_from_pretrained : string -> lib Tokenizer.
Variable load_dataset : string -> string -> option string -> lib DatasetDict.
Variable str_len : text -> Z.
Variable dataloaders : DataBlockCall -> lib (DataLoaders).
Variable test_dl : DataLoaders -> DataFrame -> lib TestDL.

Local Abbreviation manager := (@GLUEDataManager Tokenizer DataLoaders).
Local Abbreviation session := (@state Tokenizer DataLoaders).
Local Abbreviation comp := (@M Tokenizer DataLoaders).

(** *** The truncation loop *)

Lemma select_range_min (n : Z) (d : Dataset) :
  select_range (Z.min n (len d)) d = take (Z.to_nat n) d.
Proof.
  unfold select_range, len. destruct (Z.le_gt_cases n (Z.of_nat (length d))).
  - by rewrite Z.min_l.
  - rewrite Z.min_r by lia. rewrite Nat2Z.id.
    rewrite firstn_all. symmetry. apply take_ge. lia.
Qed.

Lemma truncate_entry_idemp (n : Z) (k : string) (d : Dataset) :
  truncate_entry n k (truncate_entry n k d) = truncate_entry n k d.
Proof.
  unfold truncate_entry. case_bool_decide; [| done].
  rewrite !select_range_min. apply take_idemp.
Qed.

Lemma state_eta (s : session) : {| heap := heap s; self := self s |} = s.
Proof. by destruct s. Qed.

Lemma truncate_body (r : loc) (n : Z) (k : string) (s : session)
    (ds : DatasetDict) (d : Dataset) :
  heap s !! r = Some ds ->
  ds !! k = Some d ->
  (if bool_decide (k ≠ "test") then
     (d <~ dict_get r k ;; dict_set r k (select_range (Z.min n (len d)) d))
   else ret tt) s
  = ({| heap := <[r := <[k := truncate_entry n k d]> ds]> (heap s);
        self := self s |}, Ok tt).
Proof.
  intros Hr Hd. unfold truncate_entry. destruct (bool_decide (k ≠ "test")).
  - unfold bindM, dict_get, bindM, deref, lift, dict_set, getitem.
    rewrite Hr. simpl. by rewrite Hd.
  - unfold ret. rewrite (insert_id ds) by done. rewrite insert_id by done.
    by rewrite state_eta.
Qed.

Lemma truncate_loop (r : loc) (n : Z) (keys : list string) :
  forall (s : session) (ds : DatasetDict),
    heap s !! r = Some ds ->
    (forall k, k ∈ keys -> is_Some (ds !! k)) ->
    exists ds',
      for_ keys (fun split =>
        if bool_decide (split ≠ "test") then
          (d <~ dict_get r split ;;
           dict_set r split (select_range (Z.min n (len d)) d))
        else ret tt) s
      = ({| heap := <[r := ds']> (heap s); self := self s |}, Ok tt)
      /\ forall k, ds' !! k =
           (if bool_decide (k ∈ keys) then truncate_entry n k else id) <$> ds !! k.
Proof.
  set (body := fun split : string => _).
  induction keys as [| k keys IH]; intros s ds Hr Hkeys.
  - exists ds. split.
    + simpl. unfold ret. rewrite insert_id by done. by rewrite state_eta.
    + intros k. rewrite bool_decide_eq_false_2 by apply not_elem_of_nil.
      by destruct (ds !! k).
  - destruct (Hkeys k) as [d Hd]; [left |].
    set (d1 := truncate_entry n k d).
    set (s1 := {| heap := <[r := <[k := d1]> ds]> (heap s); self := self s |}).
    assert (Hbody : body k s = (s1, Ok tt)) by apply (truncate_body r n k s ds d Hr Hd).
    destruct (IH s1 (<[k := d1]> ds)) as (ds' & Hrun & Hlook).
    { simpl. apply lookup_insert_eq. }
    { intros j Hj. destruct (decide (k = j)) as [<- | Hne].
      - rewrite lookup_insert_eq. eauto.
      - rewrite lookup_insert_ne by done. apply Hkeys. by right. }
    exists ds'. split.
    + cbn [for_]. unfold bindM at 1. rewrite Hbody, Hrun.
      subst s1. simpl. by rewrite insert_insert_eq.
    + intros j. rewrite Hlook. destruct (decide (k = j)) as [<- | Hne].
      * rewrite lookup_insert_eq, Hd. simpl.
        rewrite (bool_decide_eq_true_2 (k ∈ k :: keys)) by left.
        subst d1. case_bool_decide; [| done].
        by rewrite truncate_entry_idemp.
      * rewrite lookup_insert_ne by done.
        assert (Hiff : bool_decide (j ∈ keys) = bool_decide (j ∈ k :: keys)).
        { apply bool_decide_ext. rewrite elem_of_cons.
          split; [by right | intros [Heq | ?]; [by destruct Hne | done]]. }
        by rewrite Hiff.
Qed.

(** [load_datasets] with [max_samples] given, on a collection the store
    holds at [r]: the object at [r] is updated entry by entry. *)
Lemma load_datasets_custom (s : session) (r : loc) (ds : DatasetDict) (n : Z) :
  heap s !! r = Some ds ->
  exists ds',
    load_datasets load_dataset (Some r) (Some n) s
    = ({| heap := <[r := ds']> (heap s); self := with_datasets r (self s) |}, Ok r)
    /\ forall k, ds' !! k = truncate_entry n k <$> ds !! k.
Proof.
  intros Hr.
  destruct (truncate_loop r n (elements (dom ds)) s ds Hr) as (ds' & Hrun & Hlook).
  { intros k Hk. apply elem_of_dom. by apply elem_of_elements in Hk. }
  exists ds'. split.
  - unfold load_datasets. unfold bindM at 1. unfold ret at 1.
    unfold bindM at 1. unfold bindM at 1, dict_keys, bindM at 1, deref, ret at 1.
    rewrite Hr. simpl. rewrite Hrun. reflexivity.
  - intros k. rewrite Hlook. destruct (ds !! k) as [d |] eqn:Hk; [| done].
    rewrite bool_decide_eq_true_2; [done |].
    apply elem_of_elements, elem_of_dom. eauto.
Qed.

(** Without [custom_datasets] the collection fetched from the hub is put
    at a new address and treated the same way. *)
Lemma load_datasets_fetched (s : session) (ds : DatasetDict) (mx : option Z) :
  load_dataset "glue" (task_name (self s)) (cache_dir (self s)) = inr ds ->
  load_datasets load_dataset None mx s
  = load_datasets load_dataset (Some (fresh (dom (heap s)))) mx
      {| heap := <[fresh (dom (heap s)) := ds]> (heap s); self := self s |}.
Proof.
  intros Hfetch. unfold load_datasets.
  unfold bindM at 1. unfold bindM at 1. unfold get_self at 1.
  unfold bindM at 1. unfold lift at 1. rewrite Hfetch. simpl.
  unfold alloc. unfold bindM at 3. by unfold ret at 3.
Qed.

Lemma fresh_unused (h : store) : h !! fresh (dom h) = None.
Proof. apply not_elem_of_dom. apply is_fresh. Qed.

Lemma load_datasets_truncated (s : session) (custom : option loc) (r : loc)
    (ds : DatasetDict) (n : Z) :
  collection_at load_dataset s custom r ds ->
  exists ds',
    load_datasets load_dataset custom (Some n) s
    = ({| heap := <[r := ds']> (heap s); self := with_datasets r (self s) |}, Ok r)
    /\ forall k, ds' !! k = truncate_entry n k <$> ds !! k.
Proof.
  intros [[-> Hr] | (-> & Hfetch & ->)].
  - by apply load_datasets_custom.
  - rewrite (load_datasets_fetched s ds (Some n) Hfetch).
    set (r := fresh (dom (heap s))).
    destruct (load_datasets_custom
                {| heap := <[r := ds]> (heap s); self := self s |} r ds n)
      as (ds' & Hrun & Hlook); [apply lookup_insert_eq |].
    exists ds'. split; [| done]. rewrite Hrun. simpl. by rewrite insert_insert_eq.
Qed.

Lemma truncate_entry_test (n : Z) (d : Dataset) : truncate_entry n "test" d = d.
Proof. reflexivity. Qed.

Lemma truncate_entry_other (n : Z) (k : string) (d : Dataset) :
  k ≠ "test" -> truncate_entry n k d = take (Z.to_nat n) d.
Proof.
  intros Hk. unfold truncate_entry. rewrite bool_decide_eq_true_2 by done.
  apply select_range_min.
Qed.

Lemma len_take (n : Z) (d : Dataset) :
  len (take (Z.to_nat n) d) = Z.min (Z.max 0 n) (len d).
Proof. unfold len. rewrite length_take. lia. Qed.

(** C3 (amended).  [load_datasets] with [max_samples = n] leaves, at every
    split name other than [test], the first [min(n, length)] examples of the
    split in their order when [n >= 0], so that the split is no longer than
    [n] and no longer than before; a negative [n] leaves these splits empty.
    The [test] split and the set of split names are unchanged. *)
Theorem max_samples_truncates (s : session) (custom : option loc) (r : loc)
    (ds : DatasetDict) (n : Z) :
  collection_at load_dataset s custom r ds ->
  exists (s' : session) (ds' : DatasetDict),
    load_datasets load_dataset custom (Some n) s = (s', Ok r)
    /\ heap s' !! r = Some ds'
    /\ datasets (self s') = Some r
    /\ dom ds' = dom ds
    /\ ds' !! "test" = ds !! "test"
    /\ forall split d, split ≠ "test" -> ds !! split = Some d ->
         exists d',
           ds' !! split = Some d'
           /\ d' = take (Z.to_nat n) d
           /\ (forall i, (i < Z.to_nat n)%nat -> d' !! i = d !! i)
           /\ len d' <= len d
           /\ (0 <= n -> len d' = Z.min n (len d) /\ len d' <= n)
           /\ (n < 0 -> d' = []).
Proof.
  intros Hsrc.
  destruct (load_datasets_truncated s custom r ds n Hsrc) as (ds' & Hrun & Hlook).
  eexists _, ds'. split; [exact Hrun |]. simpl.
  split; [apply lookup_insert_eq |]. split; [done |]. split.
  { apply set_eq. intros k. rewrite !elem_of_dom, Hlook.
    destruct (ds !! k); simpl; split; intros [? ?]; eauto; done. }
  split.
  { rewrite Hlook. by destruct (ds !! "test"). }
  intros split d Hsplit Hd. exists (take (Z.to_nat n) d).
  split.
  { rewrite Hlook, Hd. simpl. by rewrite truncate_entry_other. }
  split; [done |]. split.
  { intros i Hi. by apply lookup_take_lt. }
  pose proof (len_take n d) as Hlen.
  split; [lia |]. split; [lia |].
  intros Hneg. replace (Z.to_nat n) with 0%nat by lia. done.
Qed.

(** C9.  With both [custom_datasets] and [max_samples] given, the
    collection that is truncated, stored in the manager and returned is the
    caller's own object: after the call the caller's reference reads the
    truncated splits, nothing else in the store has changed, and the object
    differs from what was passed in as soon as one split other than [test]
    had more than [max_samples] examples. *)
Theorem custom_datasets_truncated_in_place (s : session) (r : loc)
    (ds : DatasetDict) (n : Z) :
  heap s !! r = Some ds ->
  exists (s' : session) (ds' : DatasetDict),
    load_datasets load_dataset (Some r) (Some n) s = (s', Ok r)
    /\ datasets (self s') = Some r
    /\ heap s' !! r = Some ds'
    /\ (forall r', r' ≠ r -> heap s' !! r' = heap s !! r')
    /\ ds' !! "test" = ds !! "test"
    /\ (forall split d, split ≠ "test" -> ds !! split = Some d ->
          ds' !! split = Some (take (Z.to_nat n) d))
    /\ ((exists split d, split ≠ "test" /\ ds !! split = Some d
                        /\ Z.max 0 n < len d) ->
        heap s' !! r ≠ heap s !! r).
Proof.
  intros Hr.
  destruct (load_datasets_custom s r ds n Hr) as (ds' & Hrun & Hlook).
  eexists _, ds'. split; [exact Hrun |]. simpl.
  split; [done |]. split; [apply lookup_insert_eq |]. split.
  { intros r' Hne. by rewrite lookup_insert_ne. }
  split.
  { rewrite Hlook. by destruct (ds !! "test"). }
  split.
  { intros split d Hsplit Hd. rewrite Hlook, Hd. simpl.
    by rewrite truncate_entry_other. }
  intros (split & d & Hsplit & Hd & Hlong).
  rewrite lookup_insert_eq, Hr. intros [= Heq].
  pose proof (Hlook split) as Hk. rewrite Heq, Hd in Hk. simpl in Hk.
  injection Hk as Hk. rewrite truncate_entry_other in Hk by done.
  pose proof (len_take n d) as Hlen. rewrite <- Hk in Hlen. lia.
Qed.

(** *** What the methods do to the session *)

Lemma reads_only_keeps {A : Type} (m : comp A) : reads_only m -> keeps_dls m.
Proof. intros H s. by rewrite H. Qed.

Lemma reads_only_ret {A : Type} (a : A) : reads_only (ret a : comp A).
Proof. by intros s. Qed.

Lemma reads_only_raise {A : Type} (e : exn) : reads_only (raise e : comp A).
Proof. by intros s. Qed.

Lemma reads_only_lift {A : Type} (r : result A) : reads_only (lift r : comp A).
Proof. by intros s. Qed.

Lemma reads_only_get_self : reads_only (get_self : comp manager).
Proof. by intros s. Qed.

Lemma reads_only_deref (r : loc) : reads_only (deref r : comp DatasetDict).
Proof. by intros s. Qed.

Lemma reads_only_bind {A B : Type} (m : comp A) (k : A -> comp B) :
  reads_only m -> (forall a, reads_only (k a)) -> reads_only (bindM m k).
Proof.
  intros Hm Hk s. unfold bindM. specialize (Hm s).
  destruct (m s) as [s1 [a | e]]; simpl in *; subst; [apply Hk | done].
Qed.

Lemma keeps_dls_bind {A B : Type} (m : comp A) (k : A -> comp B) :
  keeps_dls m -> (forall a, keeps_dls (k a)) -> keeps_dls (bindM m k).
Proof.
  intros Hm Hk s. unfold bindM. specialize (Hm s).
  destruct (m s) as [s1 [a | e]]; simpl in *; [| done].
  by rewrite Hk.
Qed.

Lemma keeps_dls_alloc (ds : DatasetDict) : keeps_dls (alloc ds : comp loc).
Proof. by intros s. Qed.

Lemma keeps_dls_dict_set (r : loc) (k : string) (d : Dataset) :
  keeps_dls (dict_set r k d : comp unit).
Proof. by intros s. Qed.

Lemma keeps_dls_set_self_datasets (r : loc) : keeps_dls (set_self_datasets r : comp unit).
Proof. by intros s. Qed.

Lemma keeps_dls_for {A : Type} (xs : list A) (body : A -> comp unit) :
  (forall x, keeps_dls (body x)) -> keeps_dls (for_ xs body).
Proof.
  intros Hbody. induction xs as [| x xs IH]; simpl.
  - apply reads_only_keeps, reads_only_ret.
  - by apply keeps_dls_bind.
Qed.

Lemma reads_only_self_datasets : reads_only (self_datasets : comp loc).
Proof.
  apply reads_only_bind; [apply reads_only_get_self |].
  intros m. destruct (datasets m); [apply reads_only_ret | apply reads_only_raise].
Qed.

Lemma reads_only_dict_get (r : loc) (k : string) : reads_only (dict_get r k : comp Dataset).
Proof.
  apply reads_only_bind; [apply reads_only_deref | intros; apply reads_only_lift].
Qed.

Lemma reads_only_dict_keys (r : loc) : reads_only (dict_keys r : comp (list string)).
Proof.
  apply reads_only_bind; [apply reads_only_deref | intros; apply reads_only_ret].
Qed.

Create HintDb session discriminated.

#[local] Hint Resolve reads_only_ret reads_only_raise reads_only_lift
  reads_only_get_self reads_only_deref reads_only_self_datasets
  reads_only_dict_get reads_only_dict_keys reads_only_keeps
  keeps_dls_alloc keeps_dls_dict_set keeps_dls_set_self_datasets : session.

Ltac step_bind :=
  first [ solve [auto with session]
        | apply keeps_dls_bind; [| intros ? ]
        | apply reads_only_bind; [| intros ? ] ].

Lemma load_datasets_keeps_dls (custom : option loc) (mx : option Z) :
  keeps_dls (load_datasets load_dataset custom mx : comp loc).
Proof.
  unfold load_datasets. apply keeps_dls_bind.
  { destruct custom; [auto with session |].
    repeat step_bind. }
  intros r. apply keeps_dls_bind.
  { destruct mx; [| auto with session].
    apply keeps_dls_bind; [auto with session |].
    intros keys. apply keeps_dls_for. intros k.
    case_bool_decide; [| auto with session].
    apply keeps_dls_bind; auto with session. }
  intros _. apply keeps_dls_bind; auto with session.
Qed.

Lemma sets_dls_bind {A : Type} (m : comp A) (k : A -> comp DataLoaders) :
  keeps_dls m -> (forall a, sets_dls_on_return (k a)) ->
  sets_dls_on_return (bindM m k).
Proof.
  intros Hm Hk s. unfold bindM. specialize (Hm s).
  destruct (m s) as [s1 [a | e]]; simpl in *; [| done].
  specialize (Hk a s1). destruct (k a s1) as [s2 [d | e]]; simpl in *; congruence.
Qed.

Lemma create_dataloaders_sets_dls (custom : option loc) (mx : option Z) :
  sets_dls_on_return
    (create_dataloaders load_dataset str_len dataloaders custom mx
     : comp DataLoaders).
Proof.
  unfold create_dataloaders.
  apply sets_dls_bind; [auto with session |]. intros m0.
  apply sets_dls_bind.
  { destruct (_ || _); [| auto with session].
    apply keeps_dls_bind; [apply load_datasets_keeps_dls | auto with session]. }
  intros _. do 5 (apply sets_dls_bind; [auto with session |]; intros ?).
  by intros s.
Qed.

Lemma create_test_dataloader_reads_only (td : option Dataset) :
  reads_only (create_test_dataloader test_dl td : comp TestDL).
Proof.
  unfold create_test_dataloader, test_data_or_loaded.
  apply reads_only_bind; [auto with session |]. intros m.
  destruct (dls m); [| auto with session].
  apply reads_only_bind.
  { destruct td as [[| ? ?] |]; repeat step_bind. }
  intros [chosen |]; [| auto with session].
  apply reads_only_bind; auto with session.
Qed.

(** *** The extraction loops *)

Lemma for_each_Ok {A B : Type} (f : A -> result B) (xs : list A) (ys : list B) :
  for_each f xs = Ok ys <-> Forall2 (fun x y => f x = Ok y) xs ys.
Proof.
  revert ys. induction xs as [| x xs IH]; intros ys; simpl.
  - split; [intros [= <-]; constructor | by intros ->%Forall2_nil_inv_l].
  - destruct (f x) as [y | e] eqn:Hx; simpl.
    + destruct (for_each f xs) as [ys' | e] eqn:Hxs; simpl.
      * split.
        -- intros [= <-]. constructor; [done | by apply IH].
        -- intros (y' & ys'' & Hy & Hrest & ->)%Forall2_cons_inv_l.
           apply IH in Hrest. congruence.
      * split; [done |].
        intros (y' & ys'' & Hy & Hrest & ->)%Forall2_cons_inv_l.
        apply IH in Hrest. done.
    + split; [done |].
      intros (y' & ys'' & Hy & Hrest & ->)%Forall2_cons_inv_l. congruence.
Qed.

Lemma for_each_raises_from {A B : Type} (f : A -> result B) (xs : list A) (e : exn) :
  for_each f xs = Raise e -> exists x, x ∈ xs /\ f x = Raise e.
Proof.
  induction xs as [| x xs IH]; simpl; [done |].
  destruct (f x) as [y | e'] eqn:Hx; simpl.
  - destruct (for_each f xs) as [ys | e'']; simpl; [done |].
    intros [= ->]. destruct IH as (x' & Hin & Hx'); [done |].
    exists x'. split; [by right | done].
  - intros [= ->]. exists x. split; [left | done].
Qed.

(** The branch on [text_field2] computes the prescribed entry. *)
Lemma branch_prescribed (f1 : string) (f2 : option string) (it : item) (t : text) :
  match f2 with
  | Some f2 => v1 <- getitem it f1 ;; v2 <- getitem it f2 ;; Ok (Tuple2 v1 v2)
  | None => v <- getitem it f1 ;; Ok (Bare v)
  end = Ok t
  <-> prescribed (f1, f2) it t.
Proof.
  unfold getitem. destruct f2 as [f2 |].
  - destruct (it !! f1) as [v1 |] eqn:H1; simpl.
    + destruct (it !! f2) as [v2 |] eqn:H2; simpl.
      * split; [intros [= <-]; by constructor |].
        inversion 1; subst. congruence.
      * split; [done | inversion 1; congruence].
    + split; [done | inversion 1; congruence].
  - destruct (it !! f1) as [v |] eqn:H1; simpl.
    + split; [intros [= <-]; by constructor | inversion 1; congruence].
    + split; [done | inversion 1; congruence].
Qed.

Lemma branch_raises_key (f1 : string) (f2 : option string) (it : item) (e : exn) :
  match f2 with
  | Some f2 => v1 <- getitem it f1 ;; v2 <- getitem it f2 ;; Ok (Tuple2 v1 v2)
  | None => v <- getitem it f1 ;; Ok (Bare v)
  end = Raise e
  -> exists k, e = KeyError k.
Proof.
  unfold getitem. destruct f2 as [f2 |]; destruct (it !! f1); simpl;
    try destruct (it !! f2); simpl; intros [=]; eauto.
Qed.

Lemma prescribed_functional (fields : string * option string) (it : item)
    (t1 t2 : text) :
  prescribed fields it t1 -> prescribed fields it t2 -> t1 = t2.
Proof. inversion 1; inversion 1; subst; congruence. Qed.

Lemma prescribed_all_functional (fields : string * option string)
    (td : Dataset) (l1 l2 : list text) :
  Forall2 (prescribed fields) td l1 -> Forall2 (prescribed fields) td l2 ->
  l1 = l2.
Proof.
  intros H1. revert l2. induction H1 as [| it t1 td l1 Ht1 _ IH]; intros l2 H2.
  - by apply Forall2_nil_inv_l in H2.
  - apply Forall2_cons_inv_l in H2 as (t2 & l2' & Ht2 & Hl2 & ->).
    f_equal; [eapply prescribed_functional; eauto | by apply IH].
Qed.

(** The test frame: the prescribed entries, each with label 0. *)
Lemma test_frame_Ok (m : manager) (td : Dataset) (frame : DataFrame) :
  test_frame m td = Ok frame <->
  exists fields,
    text_fields m !! task_name m = Some fields
    /\ Forall2 (prescribed fields) td (text_col frame)
    /\ label_col frame = replicate (length (text_col frame)) (VInt 0).
Proof.
  unfold test_frame. unfold getitem at 1.
  destruct (text_fields m !! task_name m) as [[f1 f2] |]; simpl;
    [| split; [done | by intros (? & [=] & _)]].
  match goal with |- context [for_each ?f td] => set (body := f) end.
  assert (Hbody : forall texts,
            Forall2 (fun x y => body x = Ok y) td texts
            <-> Forall2 (prescribed (f1, f2)) td texts).
  { intros texts.
    split; intros H; (eapply Forall2_impl; [exact H |]); intros it t;
      apply branch_prescribed. }
  destruct (for_each body td) as [texts | e] eqn:Hrun; simpl.
  - apply for_each_Ok, Hbody in Hrun. split.
    + intros [= <-]. by exists (f1, f2).
    + intros (fields & [= <-] & Htexts & Hlabels).
      destruct frame as [tc lc]. simpl in *. subst lc.
      by rewrite (prescribed_all_functional _ _ _ _ Htexts Hrun).
  - split; [done |]. intros (fields & [= <-] & Htexts & _).
    apply Hbody, for_each_Ok in Htexts. congruence.
Qed.

Lemma test_frame_raises_key (m : manager) (td : Dataset) (e : exn) :
  test_frame m td = Raise e -> exists k, e = KeyError k.
Proof.
  unfold test_frame. unfold getitem at 1.
  destruct (text_fields m !! task_name m) as [[f1 f2] |]; simpl;
    [| intros [=]; eauto].
  match goal with |- context [for_each ?f td] => set (body := f) end.
  destruct (for_each body td) as [texts | e'] eqn:Hrun; simpl; [done |].
  intros [= ->]. apply for_each_raises_from in Hrun as (it & _ & Hit).
  by apply branch_raises_key in Hit.
Qed.

Lemma for_each_total {A B : Type} (f : A -> result B) (xs : list A) :
  Forall (fun x => exists y, f x = Ok y) xs -> exists ys, for_each f xs = Ok ys.
Proof.
  induction 1 as [| x xs [y Hy] _ [ys Hys]]; simpl; [by eexists |].
  rewrite Hy, Hys. simpl. by eexists.
Qed.

Lemma test_frame_total (m : manager) (fields : string * option string)
    (td : Dataset) :
  text_fields m !! task_name m = Some fields ->
  Forall (fun it => exists t, prescribed fields it t) td ->
  exists frame, test_frame m td = Ok frame.
Proof.
  intros Hf Hall. unfold test_frame. unfold getitem at 1. rewrite Hf. simpl.
  match goal with |- context [for_each ?f td] => set (body := f) end.
  destruct (for_each_total body td) as [texts ->]; [| simpl; by eexists].
  eapply Forall_impl; [exact Hall |]. intros it [t Ht]. exists t.
  apply branch_prescribed. by destruct fields.
Qed.

(** A row of the training or validation loop: the prescribed entry and the
    example's label. *)
Lemma row_Ok (f1 : string) (f2 : option string) (it : item) (row : text * value) :
  (t <- match f2 with
        | Some f2 => v1 <- getitem it f1 ;; v2 <- getitem it f2 ;; Ok (Tuple2 v1 v2)
        | None => v <- getitem it f1 ;; Ok (Bare v)
        end ;;
   l <- getitem it "label" ;; Ok (t, l)) = Ok row
  <-> prescribed (f1, f2) it row.1 /\ it !! "label" = Some row.2.
Proof.
  destruct row as [t l]. simpl.
  match goal with |- context [bind ?b _] => destruct b as [t' | e] eqn:Hb end; simpl.
  - apply branch_prescribed in Hb. unfold getitem.
    destruct (it !! "label") as [l' |]; simpl.
    + split; [by intros [= <- <-] |].
      intros [Ht [= <-]]. by rewrite (prescribed_functional _ _ _ _ Hb Ht).
    + split; [done | by intros [_ [=]]].
  - split; [done |]. intros [Ht _]. apply branch_prescribed in Ht. congruence.
Qed.

Lemma rows_Ok (f1 : string) (f2 : option string) (split : Dataset)
    (rows : list (text * value)) :
  for_each (fun it : item =>
      t <- match f2 with
           | Some f2 => v1 <- getitem it f1 ;; v2 <- getitem it f2 ;; Ok (Tuple2 v1 v2)
           | None => v <- getitem it f1 ;; Ok (Bare v)
           end ;;
      l <- getitem it "label" ;; Ok (t, l)) split = Ok rows
  <-> Forall2 (prescribed (f1, f2)) split rows.*1
      /\ Forall2 (fun it l => it !! "label" = Some l) split rows.*2.
Proof.
  split.
  - intros H%for_each_Ok.
    split; apply Forall2_fmap_r; (eapply Forall2_impl; [exact H |]);
      intros it row Hrow; by apply row_Ok in Hrow as [? ?].
  - intros [H1 H2]. apply for_each_Ok. revert rows H1 H2.
    induction split as [| it split IH]; intros [| row rows] H1 H2;
      simpl in *; inversion H1; inversion H2; subst; constructor.
    + by apply row_Ok.
    + by apply IH.
Qed.

Lemma prepare_Ok (m : manager) (ds : DatasetDict) (p : prepared) :
  _prepare_fastai_data m ds = Ok p ->
  exists fields train val,
    text_fields m !! task_name m = Some fields
    /\ ds !! "train" = Some train /\ ds !! "validation" = Some val
    /\ Forall2 (prescribed fields) train (train_texts p)
    /\ Forall2 (fun it l => it !! "label" = Some l) train (train_labels p)
    /\ Forall2 (prescribed fields) val (val_texts p)
    /\ Forall2 (fun it l => it !! "label" = Some l) val (val_labels p).
Proof.
  unfold _prepare_fastai_data. unfold getitem at 1.
  destruct (text_fields m !! task_name m) as [[f1 f2] |]; simpl; [| done].
  unfold getitem at 1. destruct (ds !! "train") as [train |]; simpl; [| done].
  match goal with |- context [for_each ?f train] =>
    destruct (for_each f train) as [rows |] eqn:Htrain end; simpl; [| done].
  unfold getitem at 1. destruct (ds !! "validation") as [val |]; simpl; [| done].
  match goal with |- context [for_each ?f val] =>
    destruct (for_each f val) as [vrows |] eqn:Hval end; simpl; [| done].
  intros [= <-]. simpl.
  apply rows_Ok in Htrain as [? ?]. apply rows_Ok in Hval as [? ?].
  exists (f1, f2), train, val. done.
Qed.

Lemma prepare_total (m : manager) (fields : string * option string)
    (ds : DatasetDict) (train val : Dataset) :
  text_fields m !! task_name m = Some fields ->
  ds !! "train" = Some train -> ds !! "validation" = Some val ->
  Forall (fun it => (exists t, prescribed fields it t) /\ is_Some (it !! "label"))
    (train ++ val) ->
  exists p, _prepare_fastai_data m ds = Ok p.
Proof.
  intros Hf Htrain Hval [Hall1 Hall2]%Forall_app. destruct fields as [f1 f2].
  unfold _prepare_fastai_data. unfold getitem at 1. rewrite Hf. simpl.
  unfold getitem at 1. rewrite Htrain. simpl.
  match goal with |- context [for_each ?f train] =>
    destruct (for_each_total f train) as [rows ->] end.
  { eapply Forall_impl; [exact Hall1 |]. intros it [[t Ht] [l Hl]].
    exists (t, l). by apply row_Ok. }
  simpl. unfold getitem at 1. rewrite Hval. simpl.
  match goal with |- context [for_each ?f val] =>
    destruct (for_each_total f val) as [vrows ->] end.
  { eapply Forall_impl; [exact Hall2 |]. intros it [[t Ht] [l Hl]].
    exists (t, l). by apply row_Ok. }
  simpl. by eexists.
Qed.

(** *** [create_test_dataloader], step by step *)

Lemma create_test_dataloader_run (s : session) (td : option Dataset) :
  create_test_dataloader test_dl td s =
  (s, match dls (self s) with
      | None => Raise PrecedenceError
      | Some dls0 =>
          chosen <- match td with
                    | Some (_ :: _) => Ok td
                    | _ => match datasets (self s) with
                           | Some r => Ok (default ∅ (heap s !! r) !! "test")
                           | None => Raise (AttributeError "datasets")
                           end
                    end ;;
          match chosen with
          | None => Raise NoTestDataError
          | Some data =>
              frame <- test_frame (self s) data ;; call (test_dl dls0 frame)
          end
      end).
Proof.
  unfold create_test_dataloader, test_data_or_loaded, self_datasets.
  unfold bindM, get_self, raise, ret, lift, deref.
  destruct (dls (self s)) as [dls0 |]; [| done].
  destruct td as [[| it td] |]; simpl;
    try (destruct (datasets (self s)); simpl; [| done]);
    try (destruct (default ∅ (heap s !! _) !! "test")); simpl; try done;
    by destruct (test_frame (self s) _).
Qed.

(** [create_test_dataloader] raises the precedence error exactly when no
    training batches are stored. *)
Lemma test_call_precedence (s : session) (td : option Dataset) :
  (perform load_dataset str_len dataloaders test_dl (BuildTestBatches td) s).2
    = Some PrecedenceError
  <-> dls (self s) = None.
Proof.
  simpl. rewrite create_test_dataloader_run. simpl.
  destruct (dls (self s)) as [dls0 |]; [| done].
  split; [| done]. intros H. exfalso. revert H.
  assert (Hdata : forall data,
            raised (frame <- test_frame (self s) data ;; call (test_dl dls0 frame))
            <> Some PrecedenceError).
  { intros data.
    destruct (test_frame (self s) data) as [frame | e] eqn:Hf; simpl.
    - destruct (call (test_dl dls0 frame)) as [? | e] eqn:Hc; simpl; [done |].
      apply call_raises_library in Hc as [msg ->]. discriminate.
    - apply test_frame_raises_key in Hf as [k ->]. discriminate. }
  destruct td as [[| ? ?] |]; simpl; try apply Hdata;
    (destruct (datasets (self s)) as [r |]; simpl; [| discriminate]);
    (destruct (default ∅ (heap s !! r) !! "test"); [apply Hdata | discriminate]).
Qed.

Lemma perform_dls (c : method) (s : session) :
  let out := perform load_dataset str_len dataloaders test_dl c s in
  match c with
  | BuildTrainingBatches _ _ =>
      match out.2 with
      | None => dls (self out.1) <> None
      | Some _ => dls (self out.1) = dls (self s)
      end
  | _ => dls (self out.1) = dls (self s)
  end.
Proof.
  destruct c as [custom n | custom n | td]; simpl.
  - apply load_datasets_keeps_dls.
  - pose proof (create_dataloaders_sets_dls custom n s) as H.
    destruct (create_dataloaders _ _ _ _ _ s) as [s' [d | e]]; simpl in *;
      congruence.
  - by rewrite create_test_dataloader_reads_only.
Qed.

Lemma perform_dls_stays (c : method) (s : session) :
  dls (self s) <> None ->
  dls (self (perform load_dataset str_len dataloaders test_dl c s).1) <> None.
Proof.
  intros Hs. pose proof (perform_dls c s) as H. simpl in H.
  destruct c; try congruence.
  destruct (perform _ _ _ _ _ s).2; congruence.
Qed.

Local Abbreviation run_session := (run load_dataset str_len dataloaders test_dl).

Lemma run_cons (c : method) (cs : list method) (s : session) :
  run_session (c :: cs) s =
  ((run_session cs (perform load_dataset str_len dataloaders test_dl c s).1).1,
   (perform load_dataset str_len dataloaders test_dl c s).2
     :: (run_session cs (perform load_dataset str_len dataloaders test_dl c s).1).2).
Proof. reflexivity. Qed.

Lemma run_trained (cs : list method) :
  forall (s : session) (i : nat) (td : option Dataset),
    dls (self s) <> None ->
    cs !! i = Some (BuildTestBatches td) ->
    exists o, (run_session cs s).2 !! i = Some o /\ o <> Some PrecedenceError.
Proof.
  induction cs as [| c cs IH]; intros s i td Hs Hi; [done |].
  rewrite run_cons. destruct i as [| i]; simpl in Hi |- *.
  - injection Hi as ->. eexists. split; [done |].
    intros H. by apply test_call_precedence in H.
  - eapply IH; [| done]. by apply perform_dls_stays.
Qed.

Lemma run_untrained (cs : list method) :
  forall (s : session) (i : nat) (td : option Dataset),
    dls (self s) = None ->
    cs !! i = Some (BuildTestBatches td) ->
    (forall j custom n, (j < i)%nat ->
       cs !! j = Some (BuildTrainingBatches custom n) ->
       (run_session cs s).2 !! j <> Some None) ->
    (run_session cs s).2 !! i = Some (Some PrecedenceError).
Proof.
  induction cs as [| c cs IH]; intros s i td Hs Hi Hnone; [done |].
  rewrite run_cons in Hnone |- *. destruct i as [| i]; simpl in Hi |- *.
  - injection Hi as ->. f_equal. by apply test_call_precedence.
  - eapply IH; [| done |].
    + pose proof (perform_dls c s) as H. simpl in H.
      destruct c as [? ? | custom n | ?]; try congruence.
      specialize (Hnone 0%nat custom n (Nat.lt_0_succ i) eq_refl).
      simpl in Hnone, H |- *.
      destruct (create_dataloaders _ _ _ _ _ s) as [s' [d | e]]; simpl in *;
        congruence.
    + intros j custom n Hj Hc. apply (Hnone (S j) custom n); [lia | done].
Qed.

Lemma run_after_training (cs : list method) :
  forall (s : session) (i j : nat) (td : option Dataset) custom n,
    (j < i)%nat ->
    cs !! j = Some (BuildTrainingBatches custom n) ->
    (run_session cs s).2 !! j = Some None ->
    cs !! i = Some (BuildTestBatches td) ->
    exists o, (run_session cs s).2 !! i = Some o /\ o <> Some PrecedenceError.
Proof.
  induction cs as [| c cs IH]; intros s i j td custom n Hji Hj Hout Hi; [done |].
  rewrite run_cons in Hout |- *. destruct i as [| i]; [lia |].
  destruct j as [| j]; simpl in *.
  - injection Hj as ->. eapply run_trained; [| done].
    pose proof (perform_dls (BuildTrainingBatches custom n) s) as H. simpl in H.
    injection Hout as Hout. simpl in Hout. by rewrite Hout in H.
  - eapply (IH _ i j); [lia | done | done | done].
Qed.

(** C2.  In a session on a manager without training batches, a call of
    [create_test_dataloader] raises the precedence error whenever no earlier
    call of [create_dataloaders] has returned, in particular when it comes
    first; once a call of [create_dataloaders] has returned, no later call
    of [create_test_dataloader] raises it, whatever else it raises. *)
Theorem test_batches_need_training_batches (s0 : session) (cs : list method)
    (i : nat) (td : option Dataset) :
  dls (self s0) = None ->
  cs !! i = Some (BuildTestBatches td) ->
  ((forall j custom n, (j < i)%nat ->
      cs !! j = Some (BuildTrainingBatches custom n) ->
      (run_session cs s0).2 !! j <> Some None) ->
   (run_session cs s0).2 !! i = Some (Some PrecedenceError))
  /\ ((exists j custom n, (j < i)%nat
         /\ cs !! j = Some (BuildTrainingBatches custom n)
         /\ (run_session cs s0).2 !! j = Some None) ->
      exists o, (run_session cs s0).2 !! i = Some o /\ o <> Some PrecedenceError).
Proof.
  intros Hs Hi. split.
  - by apply (run_untrained cs s0 i td).
  - intros (j & custom & n & Hji & Hj & Hout).
    by apply (run_after_training cs s0 i j td custom n).
Qed.

(** C8.  When [create_test_dataloader] returns, the stream is what
    [test_dl] of the stored training batches gives for the test frame, the
    session is unchanged, and the frame has one row per test example, each
    with label 0, whatever the examples hold. *)
Theorem test_rows_labelled_zero (s s' : session) (td : option Dataset)
    (stream : TestDL) :
  create_test_dataloader test_dl td s = (s', Ok stream) ->
  s' = s
  /\ exists dls0 data frame,
       dls (self s) = Some dls0
       /\ (td = Some data
           \/ ((td = None \/ td = Some [])
               /\ exists r, datasets (self s) = Some r
                    /\ default ∅ (heap s !! r) !! "test" = Some data))
       /\ test_frame (self s) data = Ok frame
       /\ test_dl dls0 frame = inr stream
       /\ length (text_col frame) = length data
       /\ label_col frame = replicate (length data) (VInt 0)
       /\ (forall i l, label_col frame !! i = Some l -> l = VInt 0).
Proof.
  rewrite create_test_dataloader_run. intros [= <- Hrun]. split; [done |].
  destruct (dls (self s)) as [dls0 |]; [| done].
  assert (Hchosen : exists data,
            (td = Some data
             \/ ((td = None \/ td = Some [])
                 /\ exists r, datasets (self s) = Some r
                      /\ default ∅ (heap s !! r) !! "test" = Some data))
            /\ (frame <- test_frame (self s) data ;; call (test_dl dls0 frame))
               = Ok stream).
  { destruct td as [[| it td] |]; simpl in Hrun.
    - destruct (datasets (self s)) as [r |]; simpl in Hrun; [| done].
      destruct (default ∅ (heap s !! r) !! "test") as [data |] eqn:Hd; [| done].
      exists data. split; [right; eauto |done].
    - exists (it :: td). split; [by left | done].
    - destruct (datasets (self s)) as [r |]; simpl in Hrun; [| done].
      destruct (default ∅ (heap s !! r) !! "test") as [data |] eqn:Hd; [| done].
      exists data. split; [right; eauto | done]. }
  destruct Hchosen as (data & Hdata & Hstream).
  destruct (test_frame (self s) data) as [frame |] eqn:Hframe; [| done].
  simpl in Hstream.
  destruct (test_dl dls0 frame) as [msg | stream'] eqn:Hdl; simpl in Hstream;
    [done |]. injection Hstream as ->.
  apply test_frame_Ok in Hframe as Hspec. destruct Hspec as (fields & _ & Htexts & Hlabels).
  apply Forall2_length in Htexts.
  exists dls0, data, frame. do 4 (split; [done |]).
  split; [done |]. split; [by rewrite Htexts |].
  intros i l Hl. rewrite Hlabels in Hl.
  by apply lookup_replicate in Hl as [-> _].
Qed.

(** C10.  A [test_data] argument that is [None] or empty is treated as
    absent: the call is the one without the argument and works on the
    loaded test split.  The error for missing test data is then raised
    only when the loaded collection has no test split, and an empty
    [test_data] never gives a stream over no rows: fastai's [test_dl] looks
    at the first row of the frame and raises on a frame without rows (the
    hypothesis on [test_dl]), so a stream that is returned was built from a
    loaded test split that has examples. *)
Theorem falsy_test_data_falls_back (s : session) (dls0 : DataLoaders) (r : loc)
    (td : option Dataset) :
  (forall d frame, text_col frame = [] -> exists msg, test_dl d frame = inl msg) ->
  dls (self s) = Some dls0 ->
  datasets (self s) = Some r ->
  td = None \/ td = Some [] ->
  create_test_dataloader test_dl td s = create_test_dataloader test_dl None s
  /\ (default ∅ (heap s !! r) !! "test" = None ->
        create_test_dataloader test_dl td s = (s, Raise NoTestDataError))
  /\ (forall loaded, default ∅ (heap s !! r) !! "test" = Some loaded ->
        create_test_dataloader test_dl td s
        = (s, frame <- test_frame (self s) loaded ;; call (test_dl dls0 frame)))
  /\ ((create_test_dataloader test_dl td s).2 = Raise NoTestDataError ->
        default ∅ (heap s !! r) !! "test" = None
        \/ default ∅ (heap s !! r) !! "test" = Some [])
  /\ (forall td',
        (create_test_dataloader test_dl td' s).2 = Raise NoTestDataError
        <-> (td' = None \/ td' = Some [])
            /\ default ∅ (heap s !! r) !! "test" = None)
  /\ (forall stream,
        (create_test_dataloader test_dl td s).2 = Ok stream ->
        exists loaded frame,
          default ∅ (heap s !! r) !! "test" = Some loaded
          /\ loaded ≠ []
          /\ test_frame (self s) loaded = Ok frame
          /\ length (text_col frame) = length loaded
          /\ text_col frame ≠ []
          /\ test_dl dls0 frame = inr stream).
Proof.
  intros Hrefuses Hdls Hds Htd.
  assert (Hdata : forall data,
            (frame <- test_frame (self s) data ;; call (test_dl dls0 frame))
            <> Raise NoTestDataError).
  { intros data.
    destruct (test_frame (self s) data) as [frame | e] eqn:Hf; simpl.
    - intros Hc. apply call_raises_library in Hc as [msg [=]].
    - apply test_frame_raises_key in Hf as [k ->]. discriminate. }
  assert (Hraise : forall td',
            (create_test_dataloader test_dl td' s).2 = Raise NoTestDataError
            <-> (td' = None \/ td' = Some [])
                /\ default ∅ (heap s !! r) !! "test" = None).
  { intros td'. rewrite create_test_dataloader_run, Hdls, Hds. simpl.
    destruct td' as [[| it td'] |]; simpl.
    - destruct (default ∅ (heap s !! r) !! "test") as [loaded |]; simpl.
      + split; [by intros ?%Hdata | by intros [_ [=]]].
      + split; [by eauto | done].
    - split; [by intros ?%Hdata | intros [[[=] | [=]] _]].
    - destruct (default ∅ (heap s !! r) !! "test") as [loaded |]; simpl.
      + split; [by intros ?%Hdata | by intros [_ [=]]].
      + split; [by eauto | done]. }
  assert (Hrun : create_test_dataloader test_dl td s
                 = (s, match default ∅ (heap s !! r) !! "test" with
                       | None => Raise NoTestDataError
                       | Some loaded =>
                           frame <- test_frame (self s) loaded ;;
                           call (test_dl dls0 frame)
                       end)).
  { rewrite create_test_dataloader_run, Hdls, Hds.
    destruct Htd as [-> | ->]; simpl;
      by destruct (default ∅ (heap s !! r) !! "test"). }
  split.
  { rewrite !create_test_dataloader_run, Hdls, Hds. by destruct Htd as [-> | ->]. }
  split; [intros Hnone; by rewrite Hrun, Hnone |].
  split; [intros loaded Hloaded; by rewrite Hrun, Hloaded |].
  split; [intros [_ Hnone]%Hraise; by left |].
  split; [exact Hraise |].
  intros stream. rewrite Hrun. simpl.
  destruct (default ∅ (heap s !! r) !! "test") as [loaded |]; [| done].
  destruct (test_frame (self s) loaded) as [frame |] eqn:Hframe; [| done].
  simpl. destruct (test_dl dls0 frame) as [msg | stream'] eqn:Hdl; [done |].
  simpl. intros [= ->].
  apply test_frame_Ok in Hframe as Hspec.
  destruct Hspec as (fields & _ & Htexts & _). apply Forall2_length in Htexts.
  assert (Hrows : text_col frame ≠ []).
  { intros Hempty. destruct (Hrefuses dls0 frame Hempty) as [msg Hmsg]. congruence. }
  exists loaded, frame. split; [done |]. split.
  { intros ->. apply Hrows. by destruct (text_col frame). }
  by repeat split.
Qed.

(** *** Initialization *)

Local Abbreviation init := (@__init__ Tokenizer DataLoaders AutoTokenizer_from_pretrained).

(** C5.  [__init__] looks at the task name in lower case only.  When that
    is none of [sst2], [mrpc], [rte] it raises the unsupported-task error;
    otherwise it never does: it fails only if the tokenizer cannot be
    resolved, and the manager it returns has the task's entry of the text
    field table (one field for [sst2], two for [mrpc] and [rte]) and label
    count 2. *)
Theorem init_supported_tasks_only (task model : string) (max_len batch : Z)
    (val_batch : option Z) (cache : option string) :
  (forall task', lower task' = lower task ->
     init task' model max_len batch val_batch cache
     = init task model max_len batch val_batch cache)
  /\ (lower task ∈ supported_tasks
      <-> lower task = "sst2" \/ lower task = "mrpc" \/ lower task = "rte")
  /\ (lower task ∉ supported_tasks ->
      init task model max_len batch val_batch cache
      = Raise (UnsupportedTaskError (lower task)))
  /\ (lower task ∈ supported_tasks ->
      (forall e, init task model max_len batch val_batch cache = Raise e ->
         exists msg, AutoTokenizer_from_pretrained model = inl msg
                     /\ e = LibraryError msg)
      /\ (forall tok, AutoTokenizer_from_pretrained model = inr tok ->
           exists (m : manager) fields,
             init task model max_len batch val_batch cache = Ok m
             /\ task_name m = lower task
             /\ text_fields m !! task_name m = Some fields
             /\ num_labels m !! task_name m = Some 2
             /\ (lower task = "sst2" -> fields = ("sentence", None))
             /\ (lower task = "mrpc" \/ lower task = "rte" ->
                   fields = ("sentence1", Some "sentence2"))
             /\ text_fields m = text_fields_table
             /\ datasets m = None /\ dls m = None)).
Proof.
  split.
  { intros task' Heq. unfold __init__. by rewrite Heq. }
  split; [apply supported_tasks_spec |].
  split.
  { intros Hno. unfold __init__. by rewrite bool_decide_eq_false_2. }
  intros Hyes. unfold __init__. rewrite bool_decide_eq_true_2 by done.
  split.
  - intros e. destruct (AutoTokenizer_from_pretrained model) as [msg | tok];
      simpl; [| done]. intros [= <-]. eauto.
  - intros tok ->. simpl.
    destruct (text_fields_supported _ Hyes) as (fields & Hf & H1 & H2).
    eexists _, fields. split; [reflexivity |]. simpl.
    split; [done |]. split; [done |].
    split; [by apply num_labels_supported |]. done.
Qed.

(** C1.  On a manager for a supported task, the entries that
    [_prepare_fastai_data] extracts from the train and the validation split
    and that [create_test_dataloader] extracts from the test data are, one
    per example and in order, what the task's text fields prescribe: for
    [mrpc] and [rte] the pair of the values of [sentence1] and [sentence2],
    for [sst2] the bare value of [sentence]. *)
Theorem extraction_follows_arity (m : manager) :
  task_name m ∈ supported_tasks ->
  text_fields m = text_fields_table ->
  exists fields,
    text_fields m !! task_name m = Some fields
    /\ (task_name m = "sst2" -> fields = ("sentence", None))
    /\ (task_name m = "mrpc" \/ task_name m = "rte" ->
          fields = ("sentence1", Some "sentence2"))
    /\ (forall ds p, _prepare_fastai_data m ds = Ok p ->
          exists train val,
            ds !! "train" = Some train /\ ds !! "validation" = Some val
            /\ Forall2 (prescribed fields) train (train_texts p)
            /\ Forall2 (prescribed fields) val (val_texts p))
    /\ (forall td frame, test_frame m td = Ok frame ->
          Forall2 (prescribed fields) td (text_col frame))
    /\ (forall it t, prescribed fields it t ->
          match fields.2 with
          | None => exists v, t = Bare v /\ it !! fields.1 = Some v
          | Some f2 =>
              exists v1 v2, t = Tuple2 v1 v2
                /\ it !! fields.1 = Some v1 /\ it !! f2 = Some v2
          end)
    /\ (forall ds train val,
          ds !! "train" = Some train -> ds !! "validation" = Some val ->
          Forall (fun it => (exists t, prescribed fields it t)
                            /\ is_Some (it !! "label")) (train ++ val) ->
          exists p, _prepare_fastai_data m ds = Ok p)
    /\ (forall td, Forall (fun it => exists t, prescribed fields it t) td ->
          exists frame, test_frame m td = Ok frame).
Proof.
  intros Htask Htable.
  destruct (text_fields_supported _ Htask) as (fields & Hf & H1 & H2).
  rewrite <- Htable in Hf.
  exists fields. do 3 (split; [done |]). split.
  { intros ds p Hp.
    apply prepare_Ok in Hp as (fields' & train & val & Hf' & ? & ? & ? & _ & ? & _).
    assert (fields' = fields) as -> by congruence. by exists train, val. }
  split.
  { intros td frame Hframe.
    apply test_frame_Ok in Hframe as (fields' & Hf' & ? & _).
    by assert (fields' = fields) as -> by congruence. }
  split.
  { intros it t Ht. inversion Ht; subst; simpl; eauto. }
  split.
  { intros ds train val. by apply prepare_total. }
  intros td. by apply test_frame_total.
Qed.

End Manager.

End DataFacts.

(** * The properties on the sample objects *)

Module Runs.

Import Data Sample.

(** The guitar example of an [mrpc] manager becomes the pair of its two
    sentences, in order. *)
Lemma guitar_pair :
  Forall2 (prescribed ("sentence1", Some "sentence2")) [guitar]
    [Tuple2 (VStr "A man is playing guitar.") (VStr "A person plays a guitar.")].
Proof.
  destruct (DataFacts.extraction_follows_arity mrpc_manager)
    as (fields & _ & _ & Hpair & _ & Htest & _).
  - apply DataFacts.supported_tasks_spec. right. left. reflexivity.
  - reflexivity.
  - rewrite <- Hpair by (left; reflexivity).
    apply (Htest [guitar]
             {| text_col := [Tuple2 (VStr "A man is playing guitar.")
                               (VStr "A person plays a guitar.")];
                label_col := [VInt 0] |}).
    vm_compute. reflexivity.
Defined.

(** Test batches asked for first raise the precedence error; asked for
    again after the training batches they do not. *)
Lemma early_call_raises_late_call_does_not :
  (run glue_hub str_len_of dataloaders_of test_dl_of early_then_late
     fresh_session).2 !! 0%nat = Some (Some PrecedenceError)
  /\ exists o,
       (run glue_hub str_len_of dataloaders_of test_dl_of early_then_late
          fresh_session).2 !! 2%nat = Some o
       /\ o <> Some PrecedenceError.
Proof.
  split.
  - apply (DataFacts.test_batches_need_training_batches
             glue_hub str_len_of dataloaders_of test_dl_of
             fresh_session early_then_late 0 None);
      [reflexivity | reflexivity |].
    intros j custom n Hj. lia.
  - apply (DataFacts.test_batches_need_training_batches
             glue_hub str_len_of dataloaders_of test_dl_of
             fresh_session early_then_late 2 None);
      [reflexivity | reflexivity |].
    exists 1%nat, (Some 1%positive), None.
    split; [lia |]. split; [reflexivity |]. vm_compute. reflexivity.
Defined.

(** With [max_samples = 2] the caller's [mrpc] collection keeps its test
    split and two of its three training examples. *)
Lemma two_samples_kept :
  exists s' ds',
    load_datasets glue_hub (Some 1%positive) (Some 2) fresh_session
    = (s', Ok 1%positive)
    /\ heap s' !! 1%positive = Some ds'
    /\ ds' !! "test" = mrpc_splits !! "test"
    /\ exists d', ds' !! "train" = Some d' /\ len d' = 2.
Proof.
  destruct (DataFacts.max_samples_truncates glue_hub fresh_session
              (Some 1%positive) 1%positive mrpc_splits 2)
    as (s' & ds' & Hrun & Hheap & _ & _ & Htest & Hsplits).
  - left. split; reflexivity.
  - exists s', ds'. do 3 (split; [done |]).
    destruct (Hsplits "train" [guitar; pair_example "a" "b" 0; pair_example "c" "d" 1])
      as (d' & Hd' & _ & _ & _ & Hlen & _); [done | reflexivity |].
    exists d'. split; [done |]. by destruct Hlen as [-> _].
Defined.

(** With [max_samples = -1] the training split is left empty, which is not
    a length of at most [-1]. *)
Lemma negative_max_samples_empties_train :
  (load_datasets glue_hub (Some 1%positive) (Some (-1)) fresh_session).2
    = Ok 1%positive
  /\ exists d',
       ((heap (load_datasets glue_hub (Some 1%positive) (Some (-1))
                 fresh_session).1 !! 1%positive) ≫= (.!! "train")) = Some d'
       /\ ~ (len d' <= -1).
Proof.
  split; [vm_compute; reflexivity |].
  exists []. split; [vm_compute; reflexivity |]. unfold len. simpl. lia.
Qed.

(** After the call the caller's reference no longer reads the collection
    that was passed in. *)
Lemma caller_sees_truncation :
  exists s',
    load_datasets glue_hub (Some 1%positive) (Some 2) fresh_session
    = (s', Ok 1%positive)
    /\ datasets (self s') = Some 1%positive
    /\ heap s' !! 1%positive <> heap fresh_session !! 1%positive.
Proof.
  destruct (DataFacts.custom_datasets_truncated_in_place glue_hub fresh_session
              1%positive mrpc_splits 2)
    as (s' & ds' & Hrun & Hself & _ & _ & _ & _ & Hdiff).
  - reflexivity.
  - exists s'. do 2 (split; [done |]). apply Hdiff.
    exists "train", [guitar; pair_example "a" "b" 0; pair_example "c" "d" 1].
    split; [done |]. split; [reflexivity |]. unfold len. simpl. lia.
Defined.

(** The test frame for one example has one row, with label 0. *)
Lemma one_test_row_label_zero :
  exists frame,
    test_frame (self (trained_on 1)) [guitar] = Ok frame
    /\ label_col frame = [VInt 0].
Proof.
  destruct (DataFacts.test_rows_labelled_zero test_dl_of
              (trained_on 1) (trained_on 1) (Some [guitar])
              {| text_col := [Tuple2 (VStr "A man is playing guitar.")
                                (VStr "A person plays a guitar.")];
                 label_col := [VInt 0] |})
    as (_ & dls0 & data & frame & _ & Hdata & Hframe & _ & _ & Hlabels & _).
  - vm_compute. reflexivity.
  - destruct Hdata as [[= <-] | [[[=] | [=]] _]].
    exists frame. split; [done |]. by rewrite Hlabels.
Defined.

(** An empty [test_data] on a session whose loaded test split is there:
    the call is the one without the argument. *)
Lemma empty_test_data_is_no_test_data :
  create_test_dataloader test_dl_of (Some []) (trained_on 1)
  = create_test_dataloader test_dl_of None (trained_on 1).
Proof.
  destruct (dls (self (trained_on 1))) as [dls0 |] eqn:Hdls.
  - apply (DataFacts.falsy_test_data_falls_back test_dl_of (trained_on 1)
             dls0 1%positive (Some [])); [| done | reflexivity | by right].
    intros d [texts labels] Hempty. simpl in Hempty. subst texts.
    eexists. reflexivity.
  - vm_compute in Hdls. discriminate.
Defined.

(** [MRPC] in capitals is the task [mrpc], with its two text fields. *)
Lemma capitals_accepted :
  exists m,
    new_manager "MRPC" = Ok m
    /\ task_name m = "mrpc"
    /\ text_fields m !! task_name m = Some ("sentence1", Some "sentence2")
    /\ num_labels m !! task_name m = Some 2.
Proof.
  destruct (DataFacts.init_supported_tasks_only (DataLoaders := DataBlockCall)
              tokenizer_for "MRPC" "prajjwal1/bert-tiny" 64 4 None None)
    as (_ & _ & _ & Hyes).
  destruct Hyes as [_ Hok];
    [apply DataFacts.supported_tasks_spec; right; left; reflexivity |].
  destruct (Hok "prajjwal1/bert-tiny") as (m & fields & Hm & ? & ? & ? & _ & Hpair & _);
    [reflexivity |].
  exists m. rewrite <- Hpair by (left; reflexivity). done.
Defined.

(** A task name outside the table still gets two labels. *)
Lemma unknown_task_two_labels :
  Models.resolve_num_labels "cola" None = 2
  /\ Models.get_pretrained_model build_model fetch_model "prajjwal1/bert-tiny" "cola" None
     = Models.get_pretrained_model build_model fetch_model "prajjwal1/bert-tiny" "cola"
         (Some 2).
Proof.
  destruct (ModelFacts.num_labels_default_permissive build_model fetch_model
              "prajjwal1/bert-tiny" "cola")
    as (_ & _ & Hunknown & _).
  apply Hunknown. reflexivity.
Defined.

(** [prajjwal1/bert-tiny] is built with the sizes of its entry. *)
Lemma tiny_is_built :
  exists config,
    Models.get_pretrained_model build_model fetch_model "prajjwal1/bert-tiny" "sst2" None
    = Ok config
    /\ Models.hidden_size (Models.shape_kwargs config) = 128
    /\ Models.num_labels config = 2.
Proof.
  destruct (ModelFacts.compact_or_pretrained build_model fetch_model
              "prajjwal1/bert-tiny" "sst2" None)
    as (Hknown & _).
  destruct (Hknown (Models.Build_arch 128 2 2 512))
    as (config & Hrun & Hsize & _ & _ & _ & _ & _ & Hlabels); [reflexivity |].
  exists config. split; [exact Hrun |]. split; [exact Hsize |]. exact Hlabels.
Defined.

(** The wrapper on the two-class model returns scores whose last dimension
    is 2, also for the batch inside a tuple. *)
Lemma tuple_batch_two_scores :
  exists t,
    Models.forward two_class_model {| Models.model := tt |}
      (Models.Tuple [Models.Dict plain_batch]) = Ok t
    /\ last (Models.shape t) = Some 2.
Proof.
  exists {| Models.shape := [1; 2]; Models.entries := [3; -3] |}.
  assert (Hrun : Models.forward two_class_model {| Models.model := tt |}
                   (Models.Tuple [Models.Dict plain_batch])
                 = Ok {| Models.shape := [1; 2]; Models.entries := [3; -3] |})
    by (vm_compute; reflexivity).
  split; [exact Hrun |].
  destruct (ModelFacts.forward_returns_logits two_class_model
              {| Models.model := tt |} plain_batch
              (Some ids_tensor) (Some mask_tensor) 2)
    as (_ & _ & _ & Hshape).
  - reflexivity.
  - reflexivity.
  - intros kwargs out [= <-]. reflexivity.
  - destruct (Hshape (Models.Tuple [Models.Dict plain_batch])
                {| Models.shape := [1; 2]; Models.entries := [3; -3] |})
      as [Hlast _]; [by right | exact Hrun | exact Hlast].
Defined.

End Runs.

(** * Further properties of the model adapter *)

Module AdapterFacts.

Import Models.

Lemma count_parameters_cons (p : ParameterTensor) (ps : list ParameterTensor) :
  count_parameters (p :: ps)
  = (if requires_grad p then numel p else 0) + count_parameters ps.
Proof. simpl. destruct (requires_grad p); lia. Qed.

(** X1.  [count_parameters] is additive: the count of a model whose
    parameters are those of one part followed by those of another is the
    sum of the two counts. *)
Theorem count_parameters_additive (ps qs : list ParameterTensor) :
  count_parameters (ps ++ qs)%list = count_parameters ps + count_parameters qs.
Proof.
  induction ps as [| p ps IH]; [done |].
  rewrite <- app_comm_cons, !count_parameters_cons, IH. lia.
Qed.

(** X2.  Parameters with [requires_grad] off do not count: the count is
    that of the trainable parameters alone, it is 0 when every parameter is
    frozen, and the order of the parameters does not matter. *)
Theorem count_parameters_trainable_only (ps : list ParameterTensor) :
  count_parameters ps = count_parameters (filter (fun p => requires_grad p = true) ps)
  /\ (Forall (fun p => requires_grad p = false) ps -> count_parameters ps = 0)
  /\ (forall qs, ps ≡ₚ qs -> count_parameters ps = count_parameters qs).
Proof.
  split; [| split].
  - induction ps as [| p ps IH]; [done |].
    rewrite filter_cons. destruct (decide (requires_grad p = true)) as [Hp | Hp].
    + rewrite !count_parameters_cons, Hp, IH. done.
    + rewrite count_parameters_cons, IH.
      by destruct (requires_grad p).
  - induction 1 as [| p ps Hp _ IH]; [done |].
    by rewrite count_parameters_cons, Hp, IH.
  - intros qs Hperm. induction Hperm as [| p ps qs _ IH | p q ps | ps qs rs _ IH1 _ IH2].
    + done.
    + by rewrite !count_parameters_cons, IH.
    + rewrite !count_parameters_cons. lia.
    + by rewrite IH1.
Qed.

(** X3.  When no parameter has a negative element count, the trainable
    count is not negative, and freezing parameters can only lower it: it is
    at most the count with every parameter trainable. *)
Theorem count_parameters_bounds (ps : list ParameterTensor) :
  Forall (fun p => 0 <= numel p) ps ->
  0 <= count_parameters ps
  /\ count_parameters ps
     <= count_parameters
          ((fun p => {| numel := numel p; requires_grad := true |}) <$> ps).
Proof.
  induction 1 as [| p ps Hp _ [IH1 IH2]]; [done |].
  rewrite fmap_cons, !count_parameters_cons. simpl.
  destruct (requires_grad p); lia.
Qed.

Section Resolve.

Context {Model : Type}.
Variable BertForSequenceClassification : BertConfig -> lib Model.
Variable from_pretrained : string -> Z -> lib Model.

Local Abbreviation resolve := (get_pretrained_model BertForSequenceClassification from_pretrained).

(** X4.  A [num_labels] of 0 is taken as left out, whatever the task, and
    gives 2 labels; any other [num_labels] is used as it is, and the task
    name then plays no part in the call. *)
Theorem explicit_num_labels (model_name task_name : string) (n : Z) :
  resolve_num_labels task_name (Some n) = (if (n =? 0)%Z then 2 else n)
  /\ resolve model_name task_name (Some 0) = resolve model_name task_name None
  /\ forall other_task,
       resolve model_name task_name (Some n) = resolve model_name other_task (Some n).
Proof.
  assert (Hn : forall t, resolve_num_labels t (Some n) = (if (n =? 0)%Z then 2 else n)).
  { intros t. unfold resolve_num_labels. simpl.
    rewrite ModelFacts.default_num_labels_is_two. done. }
  split; [apply Hn |]. split; [done |].
  intros other. unfold get_pretrained_model. by rewrite !Hn.
Qed.

(** X5.  A model name in [BERT_CONFIGS] is built locally and the model
    repository is never asked; any other name is fetched and nothing is
    built: each branch gives the same result whatever the other library
    call would do. *)
Theorem one_library_call_only (model_name task_name : string) (nl : option Z)
    (other_build : BertConfig -> lib Model)
    (other_fetch : string -> Z -> lib Model) :
  (is_Some (BERT_CONFIGS !! model_name) ->
     resolve model_name task_name nl
     = get_pretrained_model BertForSequenceClassification other_fetch
         model_name task_name nl)
  /\ (BERT_CONFIGS !! model_name = None ->
      resolve model_name task_name nl
      = get_pretrained_model other_build from_pretrained model_name task_name nl).
Proof.
  split.
  - intros [entry Hentry].
    by rewrite !(ModelFacts.resolve_known _ _ _ _ _ entry Hentry).
  - intros Hnone. by rewrite !(ModelFacts.resolve_unknown _ _ _ _ _ Hnone).
Qed.

(** X6.  [get_wrapped_model] returns a wrapper exactly when
    [get_pretrained_model] returns a model, the wrapper then holds that
    model, and otherwise it raises the same exception. *)
Theorem wrapped_model_is_resolved_model (model_name task_name : string)
    (nl : option Z) :
  (forall w : BertWrapper,
     get_wrapped_model BertForSequenceClassification from_pretrained
       model_name task_name nl = Ok w
     <-> resolve model_name task_name nl = Ok (model w))
  /\ (forall e,
       get_wrapped_model BertForSequenceClassification from_pretrained
         model_name task_name nl = Raise e
       <-> resolve model_name task_name nl = Raise e).
Proof.
  unfold get_wrapped_model.
  destruct (resolve model_name task_name nl) as [m | e0]; simpl; split.
  - intros [m']. simpl. split; [by intros [= <-] | by intros [= <-]].
  - intros e. split; intros [=].
  - intros w. split; intros [=].
  - intros e. split; intros [= <-]; done.
Qed.

End Resolve.

Section Wrapper.

Context {Model scalar : Type}.
Variable call_model :
  Model -> gmap string (option (@Tensor scalar)) -> lib (@SequenceClassifierOutput scalar).

Local Abbreviation fwd := (forward call_model).

(** X7.  [forward] reads three keys of the batch dictionary only: two
    batches that agree on [input_ids], on [attention_mask] and on
    [token_type_ids] (a missing key counting as [None]) give the same
    result, so any other entry, such as labels, never reaches the model;
    and of a tuple only the first element is looked at. *)
Theorem forward_reads_three_keys (w : BertWrapper)
    (d d' : gmap string (option Tensor)) (rest rest' : list batch) :
  d !! "input_ids" = d' !! "input_ids" ->
  d !! "attention_mask" = d' !! "attention_mask" ->
  default None (d !! "token_type_ids") = default None (d' !! "token_type_ids") ->
  fwd w (Dict d) = fwd w (Dict d')
  /\ fwd w (Tuple (Dict d :: rest)) = fwd w (Dict d')
  /\ fwd w (Tuple (Dict d :: rest)) = fwd w (Tuple (Dict d' :: rest')).
Proof.
  intros Hi Hm Ht.
  assert (H : fwd w (Dict d) = fwd w (Dict d')).
  { unfold forward, getitem. simpl. by rewrite Hi, Hm, Ht. }
  by rewrite !ModelFacts.forward_tuple.
Qed.

(** X8.  A batch without [input_ids] raises [KeyError] for that key, and
    one with [input_ids] but without [attention_mask] raises [KeyError] for
    [attention_mask]; an empty tuple raises [IndexError] and a tuple whose
    first element is itself a tuple raises [TypeError].  None of these
    depends on the model. *)
Theorem forward_malformed_batch (w : BertWrapper)
    (d : gmap string (option Tensor)) (xs rest : list batch) :
  (d !! "input_ids" = None ->
     fwd w (Dict d) = Raise (KeyError "input_ids")
     /\ fwd w (Tuple (Dict d :: rest)) = Raise (KeyError "input_ids"))
  /\ (is_Some (d !! "input_ids") -> d !! "attention_mask" = None ->
      fwd w (Dict d) = Raise (KeyError "attention_mask")
      /\ fwd w (Tuple (Dict d :: rest)) = Raise (KeyError "attention_mask"))
  /\ fwd w (Tuple []) = Raise IndexError
  /\ fwd w (Tuple (Tuple xs :: rest)) = Raise TypeError.
Proof.
  split; [| split; [| done]].
  - intros Hi. rewrite ModelFacts.forward_tuple.
    unfold forward, getitem. simpl. by rewrite Hi.
  - intros [ids Hi] Hm. rewrite ModelFacts.forward_tuple.
    unfold forward, getitem. simpl. by rewrite Hi, Hm.
Qed.

(** X9.  Whatever [forward] raises is one of these: [IndexError] on the
    empty tuple, [TypeError] on a tuple inside a tuple, [KeyError] for
    [input_ids] or [attention_mask] when the batch dictionary lacks it, or
    the exception the model itself raised on the call. *)
Theorem forward_exceptions (w : BertWrapper) (x : batch) (e : exn) :
  fwd w x = Raise e ->
  (x = Tuple [] /\ e = IndexError)
  \/ (exists xs rest, x = Tuple (Tuple xs :: rest) /\ e = TypeError)
  \/ (exists d, (x = Dict d \/ exists rest, x = Tuple (Dict d :: rest))
        /\ ((d !! "input_ids" = None /\ e = KeyError "input_ids")
            \/ (is_Some (d !! "input_ids") /\ d !! "attention_mask" = None
                /\ e = KeyError "attention_mask")
            \/ (exists kwargs msg,
                  call_model (model w) kwargs = inl msg /\ e = LibraryError msg))).
Proof.
  assert (Hdict : forall d, fwd w (Dict d) = Raise e ->
            (d !! "input_ids" = None /\ e = KeyError "input_ids")
            \/ (is_Some (d !! "input_ids") /\ d !! "attention_mask" = None
                /\ e = KeyError "attention_mask")
            \/ (exists kwargs msg,
                  call_model (model w) kwargs = inl msg /\ e = LibraryError msg)).
  { intros d. destruct (d !! "input_ids") as [ids |] eqn:Hi.
    - destruct (d !! "attention_mask") as [mask |] eqn:Hm.
      + rewrite (ModelFacts.forward_dict call_model w d ids mask Hi Hm).
        match goal with |- context [call_model _ ?kw] => set (kwargs := kw) end.
        destruct (call_model (model w) kwargs) as [msg | out] eqn:Hcall; simpl;
          [| done].
        intros [= <-]. right. right. by exists kwargs, msg.
      + unfold forward, getitem. simpl. rewrite Hi, Hm. simpl.
        intros [= <-]. right. left. eauto.
    - unfold forward, getitem. simpl. rewrite Hi. simpl.
      intros [= <-]. by left. }
  destruct x as [d | [| [d | xs] rest]].
  - intros H. right. right. exists d. split; [by left | by apply Hdict].
  - intros [= <-]. by left.
  - rewrite ModelFacts.forward_tuple. intros H. right. right. exists d.
    split; [right; by exists rest | by apply Hdict].
  - intros [= <-]. right. left. by exists xs, rest.
Qed.

End Wrapper.

End AdapterFacts.

(** * Further properties of the dataset manager *)

Module SessionFacts.

Import Data.

Section Manager.

Context {Tokenizer DataLoaders TestDL : Type}.
Variable AutoTokenizer_from_pretrained : string -> lib Tokenizer.
Variable load_dataset : string -> string -> option string -> lib DatasetDict.
Variable str_len : text -> Z.
Variable dataloaders : DataBlockCall -> lib (DataLoaders).
Variable test_dl : DataLoaders -> DataFrame -> lib TestDL.

Local Abbreviation manager := (@GLUEDataManager Tokenizer DataLoaders).
Local Abbreviation session := (@state Tokenizer DataLoaders).
Local Abbreviation comp := (@M Tokenizer DataLoaders).
Local Abbreviation load := (@load_datasets Tokenizer DataLoaders load_dataset).

(** *** [load_datasets], case by case *)

Lemma load_plain (s : session) (r : loc) :
  load (Some r) None s
  = ({| heap := heap s; self := with_datasets r (self s) |}, Ok r).
Proof. reflexivity. Qed.

Lemma load_unallocated (s : session) (r : loc) (n : Z) :
  heap s !! r = None ->
  load (Some r) (Some n) s
  = ({| heap := heap s; self := with_datasets r (self s) |}, Ok r).
Proof.
  intros Hr. unfold load_datasets.
  unfold bindM at 1. unfold ret at 1.
  unfold bindM at 1. unfold bindM at 1, dict_keys, bindM at 1, deref, ret at 1.
  rewrite Hr. simpl. by rewrite dom_empty_L, elements_empty.
Qed.

Lemma load_hub_failure (s : session) (mx : option Z) (msg : string) :
  load_dataset "glue" (task_name (self s)) (cache_dir (self s)) = inl msg ->
  load None mx s = (s, Raise (LibraryError msg)).
Proof.
  intros Hfail. unfold load_datasets.
  unfold bindM at 1. unfold bindM at 1. unfold get_self at 1.
  unfold bindM at 1. unfold lift at 1. by rewrite Hfail.
Qed.

(** With a reference given, the call returns it, makes it the manager's
    [datasets] and touches no other object. *)
Lemma load_custom_cases (s : session) (r : loc) (mx : option Z) :
  exists h',
    load (Some r) mx s
    = ({| heap := h'; self := with_datasets r (self s) |}, Ok r)
    /\ (forall r', r' ≠ r -> h' !! r' = heap s !! r')
    /\ (is_Some (heap s !! r) -> is_Some (h' !! r)).
Proof.
  destruct mx as [n |]; [| exists (heap s); by rewrite load_plain].
  destruct (heap s !! r) as [ds |] eqn:Hr.
  - destruct (DataFacts.load_datasets_custom load_dataset s r ds n Hr)
      as (ds' & Hrun & _).
    exists (<[r := ds']> (heap s)). split; [done |]. split.
    + intros r' Hne. by rewrite lookup_insert_ne.
    + intros _. rewrite lookup_insert_eq. eauto.
  - exists (heap s). rewrite load_unallocated by done.
    split; [done |]. split; [done |]. by intros [? ?].
Qed.

Lemma load_cases (s : session) (custom : option loc) (mx : option Z) :
  (exists r h',
     load custom mx s
     = ({| heap := h'; self := with_datasets r (self s) |}, Ok r)
     /\ (forall r', is_Some (heap s !! r') -> is_Some (h' !! r')))
  \/ (custom = None
      /\ exists msg,
           load_dataset "glue" (task_name (self s)) (cache_dir (self s)) = inl msg
           /\ load custom mx s = (s, Raise (LibraryError msg))).
Proof.
  destruct custom as [r |].
  - left. destruct (load_custom_cases s r mx) as (h' & Hrun & Hframe & Hr).
    exists r, h'. split; [done |]. intros r' Hr'.
    destruct (decide (r' = r)) as [-> | Hne]; [by apply Hr |].
    by rewrite Hframe.
  - destruct (load_dataset "glue" (task_name (self s)) (cache_dir (self s)))
      as [msg | ds] eqn:Hhub.
    + right. split; [done |]. exists msg. split; [done |].
      by apply load_hub_failure.
    + left. rewrite (DataFacts.load_datasets_fetched load_dataset s ds mx Hhub).
      set (r := fresh (dom (heap s))).
      destruct (load_custom_cases
                  {| heap := <[r := ds]> (heap s); self := self s |} r mx)
        as (h' & Hrun & Hframe & Hr).
      exists r, h'. split; [done |]. intros r' Hr'.
      destruct (decide (r' = r)) as [-> | Hne].
      * apply Hr. simpl. rewrite lookup_insert_eq. eauto.
      * rewrite Hframe by done. simpl. by rewrite lookup_insert_ne.
Qed.

(** X10.  When the hub cannot deliver the task's data, [load_datasets]
    without [custom_datasets] raises the hub's exception and leaves the
    session as it was; so does [create_dataloaders] on a manager that has
    no datasets yet. *)
Theorem hub_failure_changes_nothing (s : session) (mx : option Z) (msg : string) :
  load_dataset "glue" (task_name (self s)) (cache_dir (self s)) = inl msg ->
  load_datasets load_dataset None mx s = (s, Raise (LibraryError msg))
  /\ (datasets (self s) = None ->
      create_dataloaders load_dataset str_len dataloaders None mx s
      = (s, Raise (LibraryError msg))).
Proof.
  intros Hfail. split; [by apply load_hub_failure |].
  intros Hnone. unfold create_dataloaders.
  unfold bindM at 1. unfold get_self at 1. rewrite Hnone. simpl.
  unfold bindM at 1. unfold bindM at 1.
  by rewrite (load_hub_failure s mx msg Hfail).
Qed.

(** X11.  A collection fetched from the hub is stored at an address that
    was not in use: every object the store held before is still there,
    unchanged, and the manager's [datasets] is the new address, which is
    also what the call returns. *)
Theorem fetched_collection_is_new (s : session) (mx : option Z) (ds : DatasetDict) :
  load_dataset "glue" (task_name (self s)) (cache_dir (self s)) = inr ds ->
  exists (s' : session) (r : loc),
    load_datasets load_dataset None mx s = (s', Ok r)
    /\ heap s !! r = None
    /\ is_Some (heap s' !! r)
    /\ datasets (self s') = Some r
    /\ (forall r', is_Some (heap s !! r') -> heap s' !! r' = heap s !! r')
    /\ (mx = None -> heap s' !! r = Some ds).
Proof.
  intros Hhub. rewrite (DataFacts.load_datasets_fetched load_dataset s ds mx Hhub).
  set (r := fresh (dom (heap s))).
  assert (Hfresh : heap s !! r = None) by apply DataFacts.fresh_unused.
  destruct (load_custom_cases
              {| heap := <[r := ds]> (heap s); self := self s |} r mx)
    as (h' & Hrun & Hframe & Hr).
  eexists _, r. split; [exact Hrun |]. simpl.
  split; [done |]. split.
  { apply Hr. simpl. rewrite lookup_insert_eq. eauto. }
  split; [done |]. split.
  - intros r' [d Hr']. assert (r' ≠ r) by congruence.
    rewrite Hframe by done. simpl. by rewrite lookup_insert_ne.
  - intros ->. rewrite load_plain in Hrun. injection Hrun as <-.
    apply lookup_insert_eq.
Qed.

Lemma truncate_entry_min (n m : Z) (k : string) (d : Dataset) :
  truncate_entry m k (truncate_entry n k d) = truncate_entry (Z.min n m) k d.
Proof.
  unfold truncate_entry. case_bool_decide; [| done].
  rewrite !DataFacts.select_range_min, take_take. f_equal. lia.
Qed.

Lemma truncate_entry_generous (n : Z) (k : string) (d : Dataset) :
  (k ≠ "test" -> len d <= n) -> truncate_entry n k d = d.
Proof.
  intros Hlen. unfold truncate_entry. case_bool_decide as Hk; [| done].
  specialize (Hlen Hk). rewrite DataFacts.select_range_min.
  apply take_ge. unfold len in Hlen. lia.
Qed.

(** X12.  A [max_samples] that no split other than [test] exceeds changes
    nothing in the caller's collection: the call is the one without
    [max_samples]. *)
Theorem generous_max_samples (s : session) (r : loc) (ds : DatasetDict) (n : Z) :
  heap s !! r = Some ds ->
  (forall split d, split ≠ "test" -> ds !! split = Some d -> len d <= n) ->
  load_datasets load_dataset (Some r) (Some n) s
  = load_datasets load_dataset (Some r) None s.
Proof.
  intros Hr Hlen.
  destruct (DataFacts.load_datasets_custom load_dataset s r ds n Hr)
    as (ds' & Hrun & Hlook).
  rewrite Hrun, load_plain. assert (ds' = ds) as ->.
  { apply map_eq. intros k. rewrite Hlook.
    destruct (ds !! k) as [d |] eqn:Hk; [| done]. simpl.
    rewrite truncate_entry_generous; [done |]. intros Hne. by eapply Hlen. }
  by rewrite insert_id.
Qed.

(** X13.  Loading the caller's collection with [max_samples = n] and then
    again with [max_samples = m] leaves the session exactly as one call
    with the smaller of the two; in particular a repeated call changes
    nothing more. *)
Theorem max_samples_twice (s : session) (r : loc) (ds : DatasetDict) (n m : Z) :
  heap s !! r = Some ds ->
  load_datasets load_dataset (Some r) (Some m)
    (load_datasets load_dataset (Some r) (Some n) s).1
  = load_datasets load_dataset (Some r) (Some (Z.min n m)) s.
Proof.
  intros Hr.
  destruct (DataFacts.load_datasets_custom load_dataset s r ds n Hr)
    as (ds1 & Hrun1 & Hlook1).
  rewrite Hrun1. simpl.
  destruct (DataFacts.load_datasets_custom load_dataset
              {| heap := <[r := ds1]> (heap s); self := with_datasets r (self s) |}
              r ds1 m)
    as (ds2 & Hrun2 & Hlook2); [apply lookup_insert_eq |].
  destruct (DataFacts.load_datasets_custom load_dataset s r ds (Z.min n m) Hr)
    as (ds3 & Hrun3 & Hlook3).
  rewrite Hrun2, Hrun3. simpl. rewrite insert_insert_eq.
  assert (ds2 = ds3) as ->; [| done].
  apply map_eq. intros k. rewrite Hlook2, Hlook1, Hlook3.
  destruct (ds !! k) as [d |]; [| done]. simpl.
  by rewrite truncate_entry_min.
Qed.

(** *** [create_dataloaders], step by step *)

Local Abbreviation train := (@create_dataloaders Tokenizer DataLoaders load_dataset str_len dataloaders).

Lemma create_dataloaders_run (s : session) (custom : option loc) (mx : option Z) :
  train custom mx s =
  let loaded :=
    if bool_decide (datasets (self s) = None) || bool_decide (custom ≠ None)
    then ((load custom mx s).1, raised (load custom mx s).2)
    else (s, None) in
  match loaded.2 with
  | Some e => (loaded.1, Raise e)
  | None =>
      match datasets (self loaded.1) with
      | None => (loaded.1, Raise (AttributeError "datasets"))
      | Some r =>
          match _prepare_fastai_data (self loaded.1)
                  (default ∅ (heap loaded.1 !! r)) with
          | Raise e => (loaded.1, Raise e)
          | Ok p =>
              match dataloaders (block_call str_len (self loaded.1) p) with
              | inl msg => (loaded.1, Raise (LibraryError msg))
              | inr d =>
                  ({| heap := heap loaded.1; self := with_dls d (self loaded.1) |},
                   Ok d)
              end
          end
      end
  end.
Proof.
  unfold create_dataloaders.
  unfold bindM at 1. unfold get_self at 1. cbv beta iota.
  unfold bindM at 1.
  assert (Htail : forall s1 : session,
    (m <~ get_self ;; r <~ self_datasets ;; ds <~ deref r ;;
     p <~ lift (_prepare_fastai_data m ds) ;;
     d <~ lift (call (dataloaders (block_call str_len m p))) ;;
     _ <~ set_self_dls d ;; ret d) s1
    = match datasets (self s1) with
      | None => (s1, Raise (AttributeError "datasets"))
      | Some r =>
          match _prepare_fastai_data (self s1) (default ∅ (heap s1 !! r)) with
          | Raise e => (s1, Raise e)
          | Ok p =>
              match dataloaders (block_call str_len (self s1) p) with
              | inl msg => (s1, Raise (LibraryError msg))
              | inr d => ({| heap := heap s1; self := with_dls d (self s1) |}, Ok d)
              end
          end
      end).
  { intros s1. unfold self_datasets, bindM, get_self, deref, lift, set_self_dls,
      ret, raise.
    destruct (datasets (self s1)) as [r |]; [| done].
    destruct (_prepare_fastai_data (self s1) (default ∅ (heap s1 !! r)))
      as [p | e]; [| done].
    by destruct (dataloaders (block_call str_len (self s1) p)). }
  destruct (bool_decide (datasets (self s) = None) || bool_decide (custom ≠ None)).
  - unfold bindM at 1. destruct (load custom mx s) as [s1 [r | e]]; simpl; [| done].
    unfold ret at 1. apply Htail.
  - unfold ret at 1. simpl. apply Htail.
Qed.

(** X14.  Once datasets are loaded, [create_dataloaders] without
    [custom_datasets] works on them as they are: [max_samples] is ignored
    and the hub is not asked. *)
Theorem loaded_datasets_are_reused (s : session) (r : loc) (mx mx' : option Z)
    (other_hub : string -> string -> option string -> lib DatasetDict) :
  datasets (self s) = Some r ->
  create_dataloaders load_dataset str_len dataloaders None mx s
  = create_dataloaders other_hub str_len dataloaders None mx' s.
Proof.
  intros Hds. unfold create_dataloaders.
  unfold bindM at 1. unfold get_self at 1. cbv beta iota.
  unfold bindM at 1. symmetry.
  unfold bindM at 1. unfold get_self at 1. cbv beta iota.
  unfold bindM at 1. by rewrite Hds.
Qed.

(** *** What [_prepare_fastai_data] returns and raises *)

Lemma prepare_aligned (m : manager) (ds : DatasetDict) (p : prepared) :
  _prepare_fastai_data m ds = Ok p ->
  exists trainsplit valsplit,
    ds !! "train" = Some trainsplit /\ ds !! "validation" = Some valsplit
    /\ length (train_texts p) = length trainsplit
    /\ length (train_labels p) = length trainsplit
    /\ length (val_texts p) = length valsplit
    /\ length (val_labels p) = length valsplit
    /\ (forall i it, trainsplit !! i = Some it ->
          exists l, train_labels p !! i = Some l /\ it !! "label" = Some l)
    /\ (forall i it, valsplit !! i = Some it ->
          exists l, val_labels p !! i = Some l /\ it !! "label" = Some l).
Proof.
  intros Hp.
  apply DataFacts.prepare_Ok in Hp
    as (fields & trainsplit & valsplit & _ & Ht & Hv & Htt & Htl & Hvt & Hvl).
  exists trainsplit, valsplit. do 2 (split; [done |]).
  split; [symmetry; by eapply Forall2_length |].
  split; [symmetry; by eapply Forall2_length |].
  split; [symmetry; by eapply Forall2_length |].
  split; [symmetry; by eapply Forall2_length |].
  split.
  - intros i it Hi. destruct (Forall2_lookup_l _ _ _ _ _ Htl Hi) as (l & ? & ?).
    by exists l.
  - intros i it Hi. destruct (Forall2_lookup_l _ _ _ _ _ Hvl Hi) as (l & ? & ?).
    by exists l.
Qed.

Lemma row_raises (f1 : string) (f2 : option string) (it : item) (e : exn) :
  (t <- match f2 with
        | Some f2 => v1 <- getitem it f1 ;; v2 <- getitem it f2 ;; Ok (Tuple2 v1 v2)
        | None => v <- getitem it f1 ;; Ok (Bare v)
        end ;;
   l <- getitem it "label" ;; Ok (t, l)) = Raise e ->
  e = KeyError f1 \/ e = KeyError "label"
  \/ exists f, f2 = Some f /\ e = KeyError f.
Proof.
  unfold getitem. destruct f2 as [f |].
  - destruct (it !! f1); simpl; [| intros [= <-]; by left].
    destruct (it !! f); simpl; [| intros [= <-]; do 2 right; by exists f].
    destruct (it !! "label"); simpl; [done | intros [= <-]; right; by left].
  - destruct (it !! f1); simpl; [| intros [= <-]; by left].
    destruct (it !! "label"); simpl; [done | intros [= <-]; right; by left].
Qed.

Lemma prepare_raises_cases (m : manager) (ds : DatasetDict) (e : exn) :
  _prepare_fastai_data m ds = Raise e ->
  (text_fields m !! task_name m = None /\ e = KeyError (task_name m))
  \/ exists fields,
       text_fields m !! task_name m = Some fields
       /\ ((ds !! "train" = None /\ e = KeyError "train")
           \/ (is_Some (ds !! "train") /\ ds !! "validation" = None
               /\ e = KeyError "validation")
           \/ e = KeyError fields.1
           \/ e = KeyError "label"
           \/ exists f, fields.2 = Some f /\ e = KeyError f).
Proof.
  unfold _prepare_fastai_data. unfold getitem at 1.
  destruct (text_fields m !! task_name m) as [[f1 f2] |]; simpl;
    [| intros [= <-]; by left].
  intros Hrun. right. exists (f1, f2). split; [done |]. simpl. revert Hrun.
  unfold getitem at 1. destruct (ds !! "train") as [trainsplit |]; simpl;
    [| intros [= <-]; by left].
  match goal with |- context [for_each ?f trainsplit] => set (body := f) end.
  assert (Hbody : forall split,
            for_each body split = Raise e ->
            e = KeyError f1 \/ e = KeyError "label"
            \/ exists f, f2 = Some f /\ e = KeyError f).
  { intros split Hfor.
    apply DataFacts.for_each_raises_from in Hfor as (it & _ & Hit).
    by apply row_raises in Hit. }
  destruct (for_each body trainsplit) as [rows |] eqn:Htrain; simpl.
  - unfold getitem at 1. destruct (ds !! "validation") as [valsplit |]; simpl;
      [| intros [= <-]; right; left; eauto].
    destruct (for_each body valsplit) as [vrows |] eqn:Hval; simpl; [done |].
    intros [= ->]. right. right. by apply Hbody in Hval.
  - intros [= ->]. right. right. by apply Hbody in Htrain.
Qed.

(** X15.  The four lists [_prepare_fastai_data] returns are aligned with
    the splits: there are as many train texts and train labels as train
    examples, the label at a position is the [label] field of the example
    at that position, and likewise for validation. *)
Theorem prepared_lists_align (m : manager) (ds : DatasetDict) (p : prepared) :
  _prepare_fastai_data m ds = Ok p ->
  exists trainsplit valsplit,
    ds !! "train" = Some trainsplit /\ ds !! "validation" = Some valsplit
    /\ length (train_texts p) = length trainsplit
    /\ length (train_labels p) = length trainsplit
    /\ length (val_texts p) = length valsplit
    /\ length (val_labels p) = length valsplit
    /\ (forall i it, trainsplit !! i = Some it ->
          exists l, train_labels p !! i = Some l /\ it !! "label" = Some l)
    /\ (forall i it, valsplit !! i = Some it ->
          exists l, val_labels p !! i = Some l /\ it !! "label" = Some l).
Proof. apply prepare_aligned. Qed.

(** X16.  [_prepare_fastai_data] raises nothing but [KeyError], and only
    for the task name (when the manager has no text fields for it), for a
    missing [train] or [validation] split, or for a text field or the
    [label] field missing in an example. *)
Theorem prepare_raises_key_errors (m : manager) (ds : DatasetDict) (e : exn) :
  _prepare_fastai_data m ds = Raise e ->
  (text_fields m !! task_name m = None /\ e = KeyError (task_name m))
  \/ exists fields,
       text_fields m !! task_name m = Some fields
       /\ ((ds !! "train" = None /\ e = KeyError "train")
           \/ (is_Some (ds !! "train") /\ ds !! "validation" = None
               /\ e = KeyError "validation")
           \/ e = KeyError fields.1
           \/ e = KeyError "label"
           \/ exists f, fields.2 = Some f /\ e = KeyError f).
Proof. apply prepare_raises_cases. Qed.

(** X17.  A collection without a [train] split makes [create_dataloaders]
    raise [KeyError] for [train]; the collection has by then become the
    manager's [datasets], while the training batches are as before. *)
Theorem missing_train_split (s : session) (r : loc) (ds : DatasetDict)
    (mx : option Z) :
  heap s !! r = Some ds ->
  ds !! "train" = None ->
  is_Some (text_fields (self s) !! task_name (self s)) ->
  (create_dataloaders load_dataset str_len dataloaders (Some r) mx s).2
    = Raise (KeyError "train")
  /\ datasets
       (self (create_dataloaders load_dataset str_len dataloaders (Some r) mx s).1)
     = Some r
  /\ dls (self (create_dataloaders load_dataset str_len dataloaders (Some r) mx s).1)
     = dls (self s).
Proof.
  intros Hr Htrain [fields Hfields].
  assert (Hload : exists ds',
            load (Some r) mx s
            = ({| heap := <[r := ds']> (heap s); self := with_datasets r (self s) |},
               Ok r)
            /\ ds' !! "train" = None).
  { destruct mx as [n |].
    - destruct (DataFacts.load_datasets_custom load_dataset s r ds n Hr)
        as (ds' & Hrun & Hlook).
      exists ds'. split; [done |]. by rewrite Hlook, Htrain.
    - exists ds. rewrite load_plain. by rewrite insert_id. }
  destruct Hload as (ds' & Hload & Htrain').
  assert (Hrun : train (Some r) mx s
                 = ({| heap := <[r := ds']> (heap s);
                       self := with_datasets r (self s) |},
                    Raise (KeyError "train"))).
  { rewrite create_dataloaders_run.
    rewrite (bool_decide_eq_true_2 (Some r ≠ None)) by done.
    rewrite orb_true_r. cbv zeta. rewrite Hload. simpl.
    rewrite lookup_insert_eq. simpl.
    unfold _prepare_fastai_data. unfold getitem at 1. simpl. rewrite Hfields. simpl.
    unfold getitem at 1. by rewrite Htrain'. }
  by rewrite Hrun.
Qed.


(** *** The test path *)

Lemma for_each_ext {A B : Type} (f g : A -> result B) (xs : list A) :
  (forall x, f x = g x) -> for_each f xs = for_each g xs.
Proof.
  intros Hfg. induction xs as [| x xs IH]; [done |].
  simpl. by rewrite Hfg, IH.
Qed.

Lemma for_each_fmap {A A' B : Type} (f : A' -> result B) (h : A -> A')
    (xs : list A) :
  for_each f (h <$> xs) = for_each (fun x => f (h x)) xs.
Proof.
  induction xs as [| x xs IH]; [done |].
  rewrite fmap_cons. simpl. by rewrite IH.
Qed.

(** X19.  On a manager for a supported task the test frame does not depend
    on the [label] field of the test examples: removing it from every
    example, or setting it to anything, gives the same frame. *)
Theorem test_frame_ignores_labels (m : manager) (td : Dataset) (v : value) :
  task_name m ∈ supported_tasks ->
  text_fields m = text_fields_table ->
  test_frame m (delete "label" <$> td) = test_frame m td
  /\ test_frame m (<["label" := v]> <$> td) = test_frame m td.
Proof.
  intros Htask Htable.
  destruct (DataFacts.text_fields_supported _ Htask) as (fields & Hf & H1 & H2).
  rewrite <- Htable in Hf.
  assert (Hfields : fields = ("sentence", None)
                    \/ fields = ("sentence1", Some "sentence2")).
  { apply DataFacts.supported_tasks_spec in Htask as [Ht | Ht];
      [left; by apply H1 | right; by apply H2]. }
  assert (Hany : forall h : item -> item,
            (forall it k, k ≠ "label" -> h it !! k = it !! k) ->
            test_frame m (h <$> td) = test_frame m td).
  { intros h Hh. unfold test_frame.
    assert (getitem (text_fields m) (task_name m) = Ok fields) as ->
      by (unfold getitem; by rewrite Hf).
    simpl. rewrite for_each_fmap.
    match goal with |- bind ?a _ = bind ?b _ => assert (a = b) as ->; [| done] end.
    apply for_each_ext. intros it.
    unfold getitem. destruct Hfields as [-> | ->]; simpl;
      by rewrite !Hh by done. }
  split; apply Hany; intros it k Hk.
  - by apply lookup_delete_ne.
  - by apply lookup_insert_ne.
Qed.

(** X20.  Test data that is given and not empty is what the test batches
    are built from: the outcome is the same in any two sessions whose
    managers have the same training batches, task and text fields, whatever
    their stores and loaded datasets are. *)
Theorem given_test_data_is_used (s s' : session) (it : item) (td : Dataset) :
  dls (self s) = dls (self s') ->
  task_name (self s) = task_name (self s') ->
  text_fields (self s) = text_fields (self s') ->
  (create_test_dataloader test_dl (Some (it :: td)) s).2
  = (create_test_dataloader test_dl (Some (it :: td)) s').2.
Proof.
  intros Hdls Htask Hfields. rewrite !DataFacts.create_test_dataloader_run.
  simpl. rewrite <- Hdls. destruct (dls (self s)) as [dls0 |]; [| done].
  unfold test_frame. by rewrite Htask, Hfields.
Qed.

(** *** Whole sessions *)

Lemma grows_refl (m : manager) : grows m m.
Proof. by repeat split. Qed.

Lemma grows_trans (m1 m2 m3 : manager) : grows m1 m2 -> grows m2 m3 -> grows m1 m3.
Proof.
  intros (? & ? & ? & ? & ? & ? & ? & ? & ? & ? & Hd12 & Hl12)
         (? & ? & ? & ? & ? & ? & ? & ? & ? & ? & Hd23 & Hl23).
  repeat split; try (etrans; eassumption).
  - intros Hset. by apply Hd23, Hd12.
  - intros Hset. by apply Hl23, Hl12.
Qed.

Lemma grows_with_datasets (m : manager) (r : loc) : grows m (with_datasets r m).
Proof. repeat split; try done; intros _; simpl; eauto. Qed.

Lemma grows_with_dls (m : manager) (d : DataLoaders) : grows m (with_dls d m).
Proof. repeat split; try done; intros _; simpl; eauto. Qed.

Lemma load_grows (s : session) (custom : option loc) (mx : option Z) :
  grows (self s) (self (load custom mx s).1).
Proof.
  destruct (load_cases s custom mx) as [(r & h' & -> & _) | (_ & msg & _ & ->)].
  - apply grows_with_datasets.
  - apply grows_refl.
Qed.

Lemma train_grows (s : session) (custom : option loc) (mx : option Z) :
  grows (self s) (self (train custom mx s).1).
Proof.
  rewrite create_dataloaders_run. cbv zeta.
  match goal with |- context [if ?b then ?x else ?y] =>
    set (loaded := if b then x else y) end.
  assert (Hloaded : grows (self s) (self loaded.1)).
  { subst loaded. destruct (_ || _); [apply load_grows | apply grows_refl]. }
  destruct loaded.2; [done |].
  destruct (datasets (self loaded.1)) as [r |]; [| done].
  destruct (_prepare_fastai_data _ _) as [p |]; [| done].
  destruct (dataloaders _) as [msg | d]; [done |]. simpl.
  eapply grows_trans; [exact Hloaded | apply grows_with_dls].
Qed.

Lemma perform_grows (c : method) (s : session) :
  grows (self s)
    (self (perform load_dataset str_len dataloaders test_dl c s).1).
Proof.
  destruct c as [custom mx | custom mx | td]; simpl.
  - apply load_grows.
  - apply train_grows.
  - rewrite DataFacts.create_test_dataloader_reads_only. apply grows_refl.
Qed.

(** X21.  Whatever calls are made on a manager, in whatever order and
    whether they return or raise, its task name, model name, maximum
    length, batch sizes, cache directory, tables and tokenizer stay as they
    were, and [datasets] and the training batches, once there, are never
    removed. *)
Theorem settings_never_change (cs : list method) (s : session) :
  grows (self s) (self (run load_dataset str_len dataloaders test_dl cs s).1).
Proof.
  revert s. induction cs as [| c cs IH]; intros s; [apply grows_refl |].
  rewrite DataFacts.run_cons. simpl.
  eapply grows_trans; [apply perform_grows | apply IH].
Qed.

Lemma perform_consistent (c : method) (s : session) :
  consistent (self s) ->
  consistent (self (perform load_dataset str_len dataloaders test_dl c s).1)
  /\ forall a,
       (perform load_dataset str_len dataloaders test_dl c s).2
       <> Some (AttributeError a).
Proof.
  intros Hs. destruct c as [custom mx | custom mx | td]; simpl.
  - destruct (load_cases s custom mx) as [(r & h' & -> & _) | (_ & msg & _ & ->)];
      simpl; (split; [| done]); [| done].
    intros _. simpl. eauto.
  - rewrite create_dataloaders_run. cbv zeta.
    match goal with |- context [if ?b then ?x else ?y] =>
      set (loaded := if b then x else y) end.
    assert (Hloaded : match loaded.2 with
                      | Some e => loaded.1 = s /\ exists msg, e = LibraryError msg
                      | None => is_Some (datasets (self loaded.1))
                      end).
    { subst loaded.
      destruct (bool_decide (datasets (self s) = None)) eqn:Hnone; simpl.
      - destruct (load_cases s custom mx)
          as [(r & h' & -> & _) | (_ & msg & _ & ->)]; simpl; eauto.
      - apply bool_decide_eq_false in Hnone.
        destruct (bool_decide (custom ≠ None)); simpl.
        + destruct (load_cases s custom mx)
            as [(r & h' & -> & _) | (_ & msg & _ & ->)]; simpl; eauto.
        + by destruct (datasets (self s)); eauto. }
    destruct loaded.2 as [e |].
    { destruct Hloaded as [-> [msg ->]]. simpl. by split. }
    destruct Hloaded as [r Hr]. rewrite Hr.
    destruct (_prepare_fastai_data _ _) as [p | e] eqn:Hp; simpl.
    + destruct (dataloaders _) as [msg | d]; simpl.
      * split; [| done]. intros _. rewrite Hr. eauto.
      * split; [| done]. intros _. simpl. rewrite Hr. eauto.
    + split; [intros _; rewrite Hr; eauto |].
      intros a [= ->].
      apply prepare_raises_cases in Hp
        as [[_ [=]] | (fields & _ & [[_ [=]] | [(_ & _ & [=]) | [[=] | [[=] | (f & _ & [=])]]]])].
  - rewrite DataFacts.create_test_dataloader_run. simpl. split; [done |].
    intros a. destruct (dls (self s)) as [dls0 |] eqn:Hdls; [| done].
    destruct Hs as [r Hr]; [eauto |]. rewrite Hr.
    assert (Hdata : forall data,
              raised (frame <- test_frame (self s) data ;; call (test_dl dls0 frame))
              <> Some (AttributeError a)).
    { intros data.
      destruct (test_frame (self s) data) as [frame | e] eqn:Hf; simpl.
      - destruct (call (test_dl dls0 frame)) as [? | e] eqn:Hc; simpl; [done |].
        apply call_raises_library in Hc as [msg ->]. discriminate.
      - apply DataFacts.test_frame_raises_key in Hf as [k ->]. discriminate. }
    destruct td as [[| ? ?] |]; simpl; try apply Hdata;
      (destruct (default ∅ (heap s !! r) !! "test"); [apply Hdata | discriminate]).
Qed.

(** X22.  In a session on a manager that has training batches only if it
    has datasets (a new manager has neither), this stays so after every
    call, and no call ever raises [AttributeError]: the test batches never
    find the [datasets] attribute missing. *)
Theorem datasets_never_missing (cs : list method) (s : session) :
  consistent (self s) ->
  consistent (self (run load_dataset str_len dataloaders test_dl cs s).1)
  /\ forall i a,
       (run load_dataset str_len dataloaders test_dl cs s).2 !! i
       <> Some (Some (AttributeError a)).
Proof.
  revert s. induction cs as [| c cs IH]; intros s Hs; [done |].
  rewrite DataFacts.run_cons. simpl.
  destruct (perform_consistent c s Hs) as [Hnext Hout].
  destruct (IH _ Hnext) as [Hend Houts].
  split; [done |]. intros [| i] a; simpl; [| apply Houts].
  intros [= H]. by apply Hout in H.
Qed.

(** *** [TextGetter] and [__init__] *)

Lemma encodes_prescribed (g : TextGetter) (sample : item) (t : text) :
  encodes g sample = Ok t <-> prescribed (s1 g, s2 g) sample t.
Proof.
  unfold encodes. rewrite <- DataFacts.branch_prescribed.
  by destruct (s2 g).
Qed.

(** X23.  A [TextGetter] for two fields returns the pair of both values in
    field order and one for a single field the bare value; it raises
    [KeyError] for the first field the sample lacks; and with a task's text
    fields it extracts from the test data exactly the texts of the
    manager's test frame. *)
Theorem text_getter_extracts_like_manager (g : TextGetter) (sample : item) :
  (forall t, encodes g sample = Ok t <-> prescribed (s1 g, s2 g) sample t)
  /\ (sample !! s1 g = None -> encodes g sample = Raise (KeyError (s1 g)))
  /\ (forall f, is_Some (sample !! s1 g) -> s2 g = Some f -> sample !! f = None ->
        encodes g sample = Raise (KeyError f))
  /\ (forall (m : manager) td frame,
        text_fields m !! task_name m = Some (s1 g, s2 g) ->
        test_frame m td = Ok frame ->
        for_each (encodes g) td = Ok (text_col frame)).
Proof.
  split; [intros t; apply encodes_prescribed |].
  split.
  { intros Hnone. unfold encodes, getitem. rewrite Hnone. by destruct (s2 g). }
  split.
  { intros f [v Hv] Hf Hnone. unfold encodes, getitem.
    by rewrite Hf, Hv, Hnone. }
  intros m td frame Hfields Hframe.
  apply DataFacts.test_frame_Ok in Hframe as (fields & Hf & Htexts & _).
  assert (fields = (s1 g, s2 g)) as -> by congruence.
  apply DataFacts.for_each_Ok.
  eapply Forall2_impl; [exact Htexts |]. intros it t. apply encodes_prescribed.
Qed.

(** X24.  A manager that [__init__] returns has the model name, maximum
    length, batch size and cache directory it was given and the tokenizer
    resolved for the model name; its validation batch size is the one
    given, except that a validation batch size left out or given as 0
    becomes twice the batch size. *)
Theorem init_stores_settings (task model : string) (max_len batch : Z)
    (val_batch : option Z) (cache : option string) (m : manager) :
  __init__ AutoTokenizer_from_pretrained task model max_len batch val_batch cache
    = Ok m ->
  model_name m = model /\ max_length m = max_len /\ bs m = batch
  /\ cache_dir m = cache
  /\ AutoTokenizer_from_pretrained model = inr (tokenizer m)
  /\ (val_batch = None \/ val_batch = Some 0 -> val_bs m = 2 * batch)
  /\ (forall v, val_batch = Some v -> v ≠ 0 -> val_bs m = v).
Proof.
  unfold __init__. destruct (bool_decide _); [| done].
  destruct (AutoTokenizer_from_pretrained model) as [msg | tok]; simpl; [done |].
  intros [= <-]. simpl. do 5 (split; [done |]). split.
  - by intros [-> | ->].
  - intros v -> Hv. simpl. by rewrite (proj2 (Z.eqb_neq v 0)).
Qed.

End Manager.

End SessionFacts.

(** * The further properties on the sample objects *)

Module MoreRuns.

Import Data Sample.

(** The layer's frozen bias does not count. *)
Lemma layer_count_in_bounds :
  0 <= Models.count_parameters layer_parameters
  /\ Models.count_parameters layer_parameters <= 128 * 2 + 2.
Proof.
  destruct (AdapterFacts.count_parameters_bounds layer_parameters) as [Hlow Hhigh].
  - repeat constructor; simpl; lia.
  - split; [exact Hlow |]. exact Hhigh.
Defined.

(** Labels added to the batch do not change what the wrapper returns. *)
Lemma labels_in_batch_are_ignored :
  Models.forward two_class_model {| Models.model := tt |}
    (Models.Dict (<["labels" := Some ids_tensor]> plain_batch))
  = Models.forward two_class_model {| Models.model := tt |} (Models.Dict plain_batch).
Proof.
  apply (AdapterFacts.forward_reads_three_keys two_class_model
           {| Models.model := tt |}
           (<["labels" := Some ids_tensor]> plain_batch) plain_batch [] []);
    reflexivity.
Defined.

(** The failing model's exception is what [forward] raises. *)
Lemma model_failure_is_passed_on :
  exists msg,
    Models.forward failing_model {| Models.model := tt |} (Models.Dict plain_batch)
    = Raise (LibraryError msg).
Proof.
  destruct (AdapterFacts.forward_exceptions failing_model {| Models.model := tt |}
              (Models.Dict plain_batch)
              (LibraryError "RuntimeError: CUDA out of memory"))
    as [[[=] _] | [(xs & rest & [=] & _) | (d & _ & Hd)]].
  - reflexivity.
  - by eexists.
Defined.

(** The sample hub has no [rte] data: nothing is loaded. *)
Lemma no_rte_data :
  load_datasets glue_hub None (Some 10) rte_session
  = (rte_session, Raise (LibraryError "ConnectionError")).
Proof.
  apply (SessionFacts.hub_failure_changes_nothing glue_hub str_len_of
           dataloaders_of rte_session (Some 10) "ConnectionError").
  reflexivity.
Defined.

(** The fetched [mrpc] data does not replace the caller's objects. *)
Lemma fetched_mrpc_is_new :
  exists s' r,
    load_datasets glue_hub None None fresh_session = (s', Ok r)
    /\ heap s' !! 1%positive = heap fresh_session !! 1%positive
    /\ heap s' !! r = Some mrpc_splits.
Proof.
  destruct (SessionFacts.fetched_collection_is_new glue_hub fresh_session None
              mrpc_splits)
    as (s' & r & Hrun & _ & _ & _ & Hold & Hnew); [reflexivity |].
  exists s', r. split; [exact Hrun |]. split.
  - apply Hold. by eexists.
  - by apply Hnew.
Defined.

(** Three samples at most from splits of three, one and two examples. *)
Lemma three_samples_keep_all :
  load_datasets glue_hub (Some 1%positive) (Some 3) fresh_session
  = load_datasets glue_hub (Some 1%positive) None fresh_session.
Proof.
  apply (SessionFacts.generous_max_samples glue_hub fresh_session 1%positive
           mrpc_splits 3).
  - reflexivity.
  - intros split d Hne Hd. unfold mrpc_splits in Hd.
    repeat (apply lookup_insert_Some in Hd as [[<- <-] | [_ Hd]];
            [unfold len; simpl; lia |]).
    by rewrite lookup_empty in Hd.
Defined.

(** Two samples, then one, is one sample. *)
Lemma two_then_one_sample :
  load_datasets glue_hub (Some 1%positive) (Some 1)
    (load_datasets glue_hub (Some 1%positive) (Some 2) fresh_session).1
  = load_datasets glue_hub (Some 1%positive) (Some (Z.min 2 1)) fresh_session.
Proof.
  apply (SessionFacts.max_samples_twice glue_hub fresh_session 1%positive
           mrpc_splits 2 1).
  reflexivity.
Defined.

(** On the trained session [max_samples] and the hub play no part. *)
Lemma trained_session_reuses_datasets :
  create_dataloaders glue_hub str_len_of dataloaders_of None (Some 1) (trained_on 1)
  = create_dataloaders (fun _ _ _ => inl "offline") str_len_of dataloaders_of
      None None (trained_on 1).
Proof.
  apply (SessionFacts.loaded_datasets_are_reused glue_hub str_len_of dataloaders_of
           (trained_on 1) 1%positive).
  reflexivity.
Defined.

(** The [mrpc] sample gives three train labels and one validation label. *)
Lemma mrpc_lists_align :
  exists p,
    _prepare_fastai_data mrpc_manager mrpc_splits = Ok p
    /\ length (train_labels p) = 3%nat /\ length (val_labels p) = 1%nat.
Proof.
  destruct (_prepare_fastai_data mrpc_manager mrpc_splits) as [p | e] eqn:Hp.
  - exists p. split; [done |].
    destruct (SessionFacts.prepared_lists_align mrpc_manager mrpc_splits p Hp)
      as (trainsplit & valsplit & Ht & Hv & _ & Hlt & _ & Hlv & _).
    injection Ht as <-. injection Hv as <-. by rewrite Hlt, Hlv.
  - vm_compute in Hp. discriminate.
Defined.

(** Without a [train] split the exception is the [KeyError] for it. *)
Lemma no_train_is_a_key_error :
  exists k, _prepare_fastai_data mrpc_manager no_train_splits = Raise (KeyError k).
Proof.
  destruct (SessionFacts.prepare_raises_key_errors mrpc_manager no_train_splits
              (KeyError "train"))
    as [[_ Hk] | (fields & _ & _)]; [reflexivity | |]; by exists "train".
Defined.

(** The collection without [train] becomes the manager's datasets all the
    same. *)
Lemma no_train_session_keeps_collection :
  datasets (self (create_dataloaders glue_hub str_len_of dataloaders_of
                    (Some 1%positive) None no_train_session).1)
  = Some 1%positive.
Proof.
  apply (SessionFacts.missing_train_split glue_hub str_len_of dataloaders_of
           no_train_session 1%positive no_train_splits None).
  - reflexivity.
  - reflexivity.
  - by eexists.
Defined.


(** Test examples with other labels give the same frame. *)
Lemma relabelled_test_data_same_frame :
  test_frame mrpc_manager (<["label" := VInt 1]> <$> [guitar])
  = test_frame mrpc_manager [guitar].
Proof.
  apply (SessionFacts.test_frame_ignores_labels mrpc_manager [guitar] (VInt 1)).
  - apply DataFacts.supported_tasks_spec. right. left. reflexivity.
  - reflexivity.
Defined.

(** Given test data gives the same batches on an empty store. *)
Lemma given_test_data_needs_no_store :
  (create_test_dataloader test_dl_of (Some [guitar]) (trained_on 1)).2
  = (create_test_dataloader test_dl_of (Some [guitar])
       {| heap := ∅; self := self (trained_on 1) |}).2.
Proof.
  apply (SessionFacts.given_test_data_is_used test_dl_of (trained_on 1)
           {| heap := ∅; self := self (trained_on 1) |} guitar []);
    reflexivity.
Defined.

(** The late call of the sample script does not raise [AttributeError]. *)
Lemma sample_script_no_attribute_error :
  (run glue_hub str_len_of dataloaders_of test_dl_of early_then_late
     fresh_session).2 !! 2%nat <> Some (Some (AttributeError "datasets")).
Proof.
  apply (SessionFacts.datasets_never_missing glue_hub str_len_of dataloaders_of
           test_dl_of early_then_late fresh_session).
  intros [d Hd]. vm_compute in Hd. discriminate.
Defined.

(** The sample manager: batch size 4, validation batch size 8. *)
Lemma sample_manager_batch_sizes :
  bs mrpc_manager = 4 /\ val_bs mrpc_manager = 2 * 4.
Proof.
  destruct (SessionFacts.init_stores_settings tokenizer_for
              "MRPC" "prajjwal1/bert-tiny" 64 4 None None mrpc_manager)
    as (_ & _ & Hbs & _ & _ & Hval & _); [reflexivity |].
  split; [exact Hbs |]. apply Hval. by left.
Defined.

End MoreRuns.
